(** * StudyStack (tracker.py): session store, timer script and dashboard

    A shallow embedding of [tracker.py].  The Streamlit script is one
    function from the widget values of a run and the session state to the
    new session state; the CSV file is the only persistent store.

    Conventions of the embedding:
    - Python [int] is [Z]; Python [float] is an exact rational [Q].  Where
      the rounding of float64 decides a statement, the statement is either
      about numbers that float64 adds without rounding ([added_exactly])
      or about the float64 sums themselves ([groupby_sum64]);
    - a pandas [DataFrame] is its list of column names and its rows, each
      row a list of cells in column order; a missing cell reads as [NaN];
      the dtype of a column is read off its cells ([upcast]);
    - a file is described by the table that [pd.read_csv] parses out of
      it; the table parsed out of the text that [to_csv] writes for a frame
      is [reread] of the frame, the type inference of the reader column by
      column;
    - an exception is a [Raise] result. *)

From Stdlib Require Import ZArith QArith Qminmax Qabs Lia Lqa Ascii DecimalString DecimalZ.
From Stdlib Require Import Uint63 Floats.
From stdpp Require Import base option list strings gmap sorting.

Local Open Scope string_scope.
Local Open Scope list_scope.
Local Open Scope Z_scope.

(** ** Results of fallible calls *)

Inductive error : Set :=
  | EmptyDataError   (* pd.read_csv on a file without a header line *)
  | ParserError      (* pd.read_csv on text that ends inside a quoted field *)
  | OSError          (* open/write failure in DataFrame.to_csv *)
  | KeyError         (* a column that the frame does not have *)
  | TypeError        (* a reduction over a non-numeric column *)
  | ValueError.      (* idxmax/idxmin of an empty or all-NaN column *)

Inductive result (A : Type) : Type :=
  | Ok (a : A)
  | Raise (e : error).
Arguments Ok {A} a.
Arguments Raise {A} e.

#[global] Instance result_ret : MRet result := fun A a => Ok a.
#[global] Instance result_bind : MBind result := fun A B k r =>
  match r with
  | Ok a => k a
  | Raise e => Raise e
  end.

(** ** Data model: cells, frames, the file *)

Inductive cell : Type :=
  | Str (s : string)
  | Int (z : Z)
  | Float (q : Q)
  | NaN.

Record DataFrame : Type := mkDataFrame {
  columns : list string;
  rows : list (list cell)
}.

(** Position of a column label (first match, as [Index.get_loc]). *)
Fixpoint index_of (c : string) (cols : list string) : option nat :=
  match cols with
  | [] => None
  | c' :: cols' => if decide (c = c') then Some O else S <$> index_of c cols'
  end.

(** [row[c]] for a row laid out along [cols]. *)
Definition row_get (cols : list string) (r : list cell) (c : string) : cell :=
  match index_of c cols with
  | Some i => default NaN (r !! i)
  | None => NaN
  end.

(** A row laid out along [cols] re-laid out along [new_cols]
    ([DataFrame.reindex(columns=new_cols)] on one row). *)
Definition reindex (new_cols cols : list string) (r : list cell) : list cell :=
  map (row_get cols r) new_cols.

(** [df[c] = v]: a new last column holding [v] in every row. *)
Definition assign_column (c : string) (v : cell) (df : DataFrame) : DataFrame :=
  {| columns := columns df ++ [c];
     rows := map (fun r => reindex (columns df) (columns df) r ++ [v]) (rows df) |}.

(** [df[c]] for a label [c]: its cells, top to bottom. *)
Definition column_cells (df : DataFrame) (c : string) : list cell :=
  (fun r => row_get (columns df) r c) <$> rows df.

(** A frame rebuilt column by column. *)
Definition by_column (f : list cell -> list cell) (df : DataFrame) : DataFrame :=
  {| columns := columns df;
     rows := (fun i => (fun c => default NaN (f (column_cells df c) !! i)) <$> columns df)
             <$> seq 0 (length (rows df)) |}.

Definition is_text (c : cell) : bool :=
  match c with Str _ => true | _ => false end.

Definition is_number (c : cell) : bool :=
  match c with Int _ | Float _ => true | _ => false end.

Definition is_int (c : cell) : bool :=
  match c with Int _ => true | _ => false end.

Definition is_float (c : cell) : bool :=
  match c with Float _ => true | _ => false end.

(** An integer as the float of the same value. *)
Definition as_float (c : cell) : cell :=
  match c with Int z => Float (inject_Z z) | _ => c end.

(** The cells of a column in their common dtype: object if it holds
    text, int64 if it holds integers only, else float64, in which the
    integers are floats. *)
Definition upcast (col : list cell) : list cell :=
  if existsb is_text col then col
  else if forallb is_int col then col
  else as_float <$> col.

(** [pd.concat([df1, df2], ignore_index=True)]: the columns of [df1]
    followed by the new ones of [df2]; rows of [df1], then rows of [df2];
    every column in the common dtype of its cells. *)
Definition concat (df1 df2 : DataFrame) : DataFrame :=
  let cols := columns df1 ++ filter (fun c => c ∉ columns df1) (columns df2) in
  by_column upcast
    {| columns := cols;
       rows := map (reindex cols (columns df1)) (rows df1)
               ++ map (reindex cols (columns df2)) (rows df2) |}.

(** *** The text of a frame and what the reader makes of it *)

(** [str(z)] for an integer: decimal digits, a minus sign if negative. *)
Definition str_of_int (z : Z) : string :=
  NilZero.string_of_int (Z.to_int z).

(** The texts that [pd.read_csv] takes for a missing value. *)
Definition na_values : list string :=
  [""; "#N/A"; "#N/A N/A"; "#NA"; "-1.#IND"; "-1.#QNAN"; "-NaN"; "-nan";
   "1.#IND"; "1.#QNAN"; "<NA>"; "N/A"; "NA"; "NULL"; "NaN"; "None"; "n/a";
   "nan"; "null"].

(** The characters of a number: digits, white space, signs, the point
    and the exponent mark. *)
Definition number_char (a : ascii) : bool :=
  match Ascii.is_nat a with
  | Some _ => true
  | None =>
      Ascii.is_space a ||
      bool_decide (a ∈ ["+"%char; "-"%char; "."%char; "e"%char; "E"%char])
  end.

(** Whether every character of a text passes a test. *)
Fixpoint all_chars (p : ascii -> bool) (s : string) : bool :=
  match s with
  | String a s' => p a && all_chars p s'
  | EmptyString => true
  end.

Fixpoint skip_spaces (s : string) : string :=
  match s with
  | String a s' => if Ascii.is_space a then skip_spaces s' else s
  | EmptyString => s
  end.

(** An optional sign: whether it is a minus, and the rest. *)
Definition take_sign (s : string) : bool * string :=
  match s with
  | String "-"%char s' => (true, s')
  | String "+"%char s' => (false, s')
  | _ => (false, s)
  end.

(** The leading digits of [s] read behind digits of value [acc]: the
    value, the number of digits read, and the rest. *)
Fixpoint take_digits (s : string) (acc : Z) (n : nat) : Z * nat * string :=
  match s with
  | String a s' =>
      match Ascii.is_nat a with
      | Some d => take_digits s' (10 * acc + Z.of_nat d) (S n)
      | None => (acc, n, s)
      end
  | EmptyString => (acc, n, s)
  end.

Inductive number : Type :=
  | Integer (z : Z)
  | Decimal (q : Q).

(** The number that the reader parses out of a field, if it is one:
    white space, a sign, digits with at most one point among them, an
    exponent, white space.  Without point and exponent, and within int64,
    it is an integer.  (The words for infinite and undefined floats are
    not numbers of the embedding, which has no cell for them;
    [plain_text] below keeps clear of them.) *)
Definition parse_number (s : string) : option number :=
  if negb (all_chars number_char s) then None else
  let '(neg, s1) := take_sign (skip_spaces s) in
  let '(m1, n1, s2) := take_digits s1 0 0 in
  let '(m, n2, s3, point) :=
    match s2 with
    | String "."%char t =>
        let '(m2, n2, t2) := take_digits t m1 0 in (m2, n2, t2, true)
    | _ => (m1, 0%nat, s2, false)
    end in
  if (n1 + n2 =? 0)%nat then None else
  let '(e, s4, expo) :=
    match s3 with
    | String a t =>
        if bool_decide (a = "e"%char \/ a = "E"%char) then
          let '(eneg, t1) := take_sign t in
          let '(ev, n3, t2) := take_digits t1 0 0 in
          if (n3 =? 0)%nat then (0, s3, false)
          else (if eneg then - ev else ev, t2, true)
        else (0, s3, false)
    | EmptyString => (0, s3, false)
    end in
  match skip_spaces s4 with
  | EmptyString =>
      let z := if neg then - m else m in
      if point || expo
      then Some (Decimal (Qred (inject_Z z * Qpower (10 # 1) (e - Z.of_nat n2))))
      else if bool_decide (- 2 ^ 63 <= z < 2 ^ 63) then Some (Integer z)
      else Some (Decimal (inject_Z z))
  | _ => None
  end.

(** [n] zeros. *)
Fixpoint zeros (n : nat) : string :=
  match n with
  | O => ""
  | S n' => String "0"%char (zeros n')
  end.

(** A text without the zeros at its end. *)
Fixpoint strip_zeros (s : string) : string :=
  match s with
  | EmptyString => ""
  | String a s' =>
      match strip_zeros s' with
      | EmptyString => if bool_decide (a = "0"%char) then "" else String a ""
      | t => String a t
      end
  end.

(** [str(x)] of a float: the integer part, the point and the decimals,
    at least one.  (Seventeen decimals at most; the exponent notation of
    very small and very large floats is not modelled.) *)
Definition float_text (q : Q) : string :=
  let n := Z.abs (Qnum q) in
  let d := Z.pos (Qden q) in
  let frac := str_of_int ((n mod d) * 10 ^ 17 / d) in
  let decimals := strip_zeros (zeros (17 - String.length frac) +:+ frac) in
  (if Qnum q <? 0 then "-" else "") +:+ str_of_int (n / d) +:+ "." +:+
  (if decide (decimals = "") then "0" else decimals).

(** The text that [to_csv] writes for a cell; quoting keeps a text apart
    from the commas and line ends around it. *)
Definition cell_text (c : cell) : string :=
  match c with
  | Str s => s
  | Int z => str_of_int z
  | Float q => float_text q
  | NaN => ""
  end.

(** What the reader sees in the field written for a cell. *)
Inductive field : Type :=
  | Missing
  | IntField (z : Z)
  | FloatField (q : Q)
  | TextField.

Definition read_field (c : cell) : field :=
  match c with
  | NaN => Missing
  | Int z => IntField z
  | Float q => FloatField q
  | Str s =>
      if bool_decide (s ∈ na_values) then Missing
      else match parse_number s with
           | Some (Integer z) => IntField z
           | Some (Decimal q) => FloatField q
           | None => TextField
           end
  end.

Definition is_text_field (f : field) : bool :=
  match f with TextField => true | _ => false end.

Definition is_int_field (f : field) : bool :=
  match f with IntField _ => true | _ => false end.

(** The cells that the reader returns for a column written from the
    cells [col]: text as soon as one field is neither a number nor
    missing; else int64 if every field is an integer; else float64.
    (A column of [True] and [False] only is left as text: the frame has
    no cell for a boolean.) *)
Definition infer_column (col : list cell) : list cell :=
  let fs := read_field <$> col in
  if existsb is_text_field fs then
    (fun c => match read_field c with
              | Missing => NaN
              | _ => Str (cell_text c)
              end) <$> col
  else if forallb is_int_field fs then
    (fun f => match f with IntField z => Int z | _ => NaN end) <$> fs
  else
    (fun f => match f with
              | IntField z => Float (inject_Z z)
              | FloatField q => Float q
              | _ => NaN
              end) <$> fs.

(** [pd.read_csv] on the text of [df.to_csv(index=False)]. *)
Definition reread (df : DataFrame) : DataFrame := by_column infer_column df.

(** Lower case of an ASCII letter. *)
Definition lower (a : ascii) : ascii :=
  let n := N_of_ascii a in
  if ((65 <=? n) && (n <=? 90))%N then ascii_of_N (n + 32) else a.

Fixpoint lower_case (s : string) : string :=
  match s with
  | String a s' => String (lower a) (lower_case s')
  | EmptyString => ""
  end.

(** A text without the white space around it. *)
Definition trim (s : string) : string :=
  String.rev (skip_spaces (String.rev (skip_spaces s))).

(** In lower case, the texts that stand for a missing value, an infinite
    or undefined float, or a boolean. *)
Definition reserved_words : list string :=
  [""; "#n/a"; "#n/a n/a"; "#na"; "-1.#ind"; "-1.#qnan"; "1.#ind"; "1.#qnan";
   "<na>"; "n/a"; "na"; "null"; "none"; "nan"; "-nan"; "+nan";
   "inf"; "-inf"; "+inf"; "infinity"; "-infinity"; "+infinity";
   "true"; "false"].

Definition printable (a : ascii) : bool :=
  let n := N_of_ascii a in ((32 <=? n) && negb (n =? 127))%N.

(** Texts that are certainly read back as written: no control character,
    some character that no number has, and not a reserved word in any
    case or with white space around it.  ("General" and
    "2024-01-03 08:00" are; "007", "1e3", "" and "NA" are not.) *)
Definition plain_text (s : string) : bool :=
  all_chars printable s && negb (all_chars number_char s) &&
  negb (bool_decide (lower_case (trim s) ∈ reserved_words)).

(** What is stored under [DATA_FILE], as [pd.read_csv] reads it. *)
Inductive content : Type :=
  | EmptyFile
  | Unparsable
  | Csv (df : DataFrame).

(** The file system as far as the script sees it: [None] when
    [os.path.exists(DATA_FILE)] is false. *)
Definition filesystem : Type := option content.

Definition read_csv (c : content) : result DataFrame :=
  match c with
  | EmptyFile => Raise EmptyDataError
  | Unparsable => Raise ParserError
  | Csv df => Ok df
  end.

(** How the write of [to_csv] goes: it completes; the open fails; an I/O
    error hits after [k] lines (header line first) were written, at the
    latest when the last line was; or it hits inside the line after
    these, of which the part written either reads as the fields [fields],
    the last one possibly cut short, or ends inside a quoted field. *)
Inductive write_fault : Set :=
  | NoFault
  | OpenFails
  | FailsAfter (k : nat)
  | FailsInLine (k : nat) (fields : list string)
  | FailsInQuotes (k : nat).

(** The file that holds the first [k] lines of the text of [df]. *)
Definition written_prefix (k : nat) (df : DataFrame) : content :=
  match k with
  | O => EmptyFile
  | S k' => Csv (reread {| columns := columns df; rows := take k' (rows df) |})
  end.

(** The file that holds the first [k] lines of the text of [df] and the
    fields [fields] of the next line, if there is one. *)
Definition torn_prefix (k : nat) (fields : list string) (df : DataFrame) : content :=
  match k with
  | O =>
      match fields with
      | [] => EmptyFile
      | _ => Csv {| columns := fields; rows := [] |}
      end
  | S k' =>
      Csv (reread {| columns := columns df;
                     rows := take k' (rows df) ++
                             (if decide (fields ≠ [] /\ (k' < length (rows df))%nat)
                              then [Str <$> fields] else []) |})
  end.

(** [df.to_csv(DATA_FILE, index=False)]: opens the path itself for
    writing, which truncates it, and writes the header and the rows. *)
Definition to_csv (fault : write_fault) (df : DataFrame) (fs : filesystem)
  : filesystem * result unit :=
  match fault with
  | NoFault => (Some (Csv (reread df)), Ok tt)
  | OpenFails => (fs, Raise OSError)
  | FailsAfter k => (Some (written_prefix k df), Raise OSError)
  | FailsInLine k fields => (Some (torn_prefix k fields df), Raise OSError)
  | FailsInQuotes _ => (Some Unparsable, Raise OSError)
  end.

(** ** Helper functions of the script *)

Definition canonical_columns : list string :=
  ["Date"; "Subject"; "Topic"; "Duration_Minutes"; "Breaks"].

Definition load_data (fs : filesystem) : result DataFrame :=
  match fs with
  | Some c =>
      df ← read_csv c;
      if decide ("Breaks" ∉ columns df)
      then Ok (assign_column "Breaks" (Int 0) df)
      else Ok df
  | None => Ok {| columns := canonical_columns; rows := [] |}
  end.

(** Nearest integer, ties to even, of a rational. *)
Definition round_half_even (q : Q) : Z :=
  let n := Qnum q in
  let d := Z.pos (Qden q) in
  let f := n / d in
  let r := n mod d in
  if 2 * r <? d then f
  else if d <? 2 * r then f + 1
  else if Z.even f then f else f + 1.

(** Python's [round(x, 2)]. *)
Definition round2 (x : Q) : Q :=
  Qred (round_half_even (x * (100 # 1)) # 100).

(** The one-row frame built from the dict literal of [save_session]. *)
Definition new_entry (now subject topic : string) (duration_minutes : Q) (breaks : Z)
  : DataFrame :=
  {| columns := canonical_columns;
     rows := [[Str now; Str subject; Str topic;
               Float (round2 duration_minutes); Int breaks]] |}.

(** [now] is [datetime.now().strftime("%Y-%m-%d %H:%M")]. *)
Definition save_session (now : string) (fault : write_fault)
    (subject topic : string) (duration_minutes : Q) (breaks : Z)
    (fs : filesystem) : filesystem * result unit :=
  match load_data fs with
  | Raise e => (fs, Raise e)
  | Ok df =>
      to_csv fault (concat df (new_entry now subject topic duration_minutes breaks)) fs
  end.

(** ** The timer: session state and one run of the script *)

Record session_state : Set := mkState {
  time_left : Z;
  timer_running : bool;
  initial_time : Z;
  break_count : Z
}.

(** Lines 42-49: the state of a fresh browser session. *)
Definition fresh_state : session_state :=
  {| time_left := 0; timer_running := false; initial_time := 0; break_count := 0 |}.

(** The button, if any, whose click triggered the run. *)
Inductive button : Set :=
  | NoButton
  | SetResetTimer
  | PauseButton
  | StartResume.

#[global] Instance button_eq_dec : EqDecision button.
Proof. solve_decision. Defined.

(** What a run reads from outside the session state: the widgets, the
    clock and the fate of the file write. *)
Record run_inputs : Type := mkInputs {
  subject : string;
  topic : string;
  hours : Z;
  minutes : Z;
  clicked : button;
  now : string;
  fault : write_fault
}.

(** [number_input("Hours", 0, 24, 0)] and [number_input("Minutes", 0, 59, 25)]. *)
Definition valid_duration (h m : Z) : Prop :=
  0 <= h <= 24 /\ 0 <= m <= 59.

(** How the timer tab ends a run: the run goes on to the dashboard, is
    cut by [st.rerun()], or dies in an exception. *)
Inductive outcome : Set :=
  | Proceeds
  | Rerun
  | Raised (e : error).

Definition world : Type := session_state * filesystem.

(** Lines 72-77: the handler of "Set / Reset Timer". *)
Definition set_reset (i : run_inputs) (s : session_state) : session_state :=
  if decide (clicked i = SetResetTimer) then
    let total_seconds := hours i * 3600 + minutes i * 60 in
    {| time_left := total_seconds;
       initial_time := total_seconds;
       timer_running := false;
       break_count := 0 |}
  else s.

(** Lines 84-88: the value handed to [st.progress]. *)
Definition progress (s : session_state) : Q :=
  if 0 <? initial_time s then
    let prog := (1 - inject_Z (time_left s) / inject_Z (initial_time s))%Q in
    Qmin prog 1
  else 0%Q.

(** Lines 104-118: the timer logic at the end of the script. *)
Definition timer_logic (i : run_inputs) (w : world) : world * outcome :=
  let '(s, fs) := w in
  if timer_running s then
    if 0 <? time_left s then
      (* time.sleep(1) *)
      (({| time_left := time_left s - 1;
           timer_running := timer_running s;
           initial_time := initial_time s;
           break_count := break_count s |}, fs), Rerun)
    else
      let s1 := {| time_left := time_left s;
                   timer_running := false;
                   initial_time := initial_time s;
                   break_count := break_count s |} in
      match save_session (now i) (fault i) (subject i) (topic i)
              (inject_Z (initial_time s1) / 60) (break_count s1) fs with
      | (fs', Raise e) => ((s1, fs'), Raised e)
      | (fs', Ok _) =>
          (({| time_left := 0;
               timer_running := false;
               initial_time := 0;
               break_count := 0 |}, fs'), Rerun)
      end
  else (w, Proceeds).

(** One run of the script through the timer tab (lines 60-118).  The
    dashboard tab, which follows when the run is not cut before, reads the
    file and changes neither the session state nor the file. *)
Definition script (i : run_inputs) (w : world) : world * outcome :=
  let '(s0, fs) := w in
  let s := set_reset i s0 in
  if timer_running s then
    if decide (clicked i = PauseButton) then
      (({| time_left := time_left s;
           timer_running := false;
           initial_time := initial_time s;
           break_count := break_count s + 1 |}, fs), Rerun)
    else timer_logic i (s, fs)
  else
    if decide (clicked i = StartResume) then
      (({| time_left := time_left s;
           timer_running := true;
           initial_time := initial_time s;
           break_count := break_count s |}, fs), Rerun)
    else timer_logic i (s, fs).

(** *** Runs as events of the timer *)

Inductive event : Set :=
  | Configure (h m : Z)   (* click on "Set / Reset Timer" with these values *)
  | Start                 (* click on "Start / Resume" *)
  | Pause                 (* click on "Pause" *)
  | Tick.                 (* a run without a click: the rerun that st.rerun() asks for *)

#[global] Instance event_eq_dec : EqDecision event.
Proof. solve_decision. Defined.

(** The inputs of the run that an event triggers; [i] gives the values
    that the event leaves alone. *)
Definition with_event (i : run_inputs) (ev : event) : run_inputs :=
  match ev with
  | Configure h m => mkInputs (subject i) (topic i) h m SetResetTimer (now i) (fault i)
  | Start => mkInputs (subject i) (topic i) (hours i) (minutes i) StartResume (now i) (fault i)
  | Pause => mkInputs (subject i) (topic i) (hours i) (minutes i) PauseButton (now i) (fault i)
  | Tick => mkInputs (subject i) (topic i) (hours i) (minutes i) NoButton (now i) (fault i)
  end.

Definition step (i : run_inputs) (w : world) (ev : event) : world :=
  fst (script (with_event i ev) w).

Definition run_events (i : run_inputs) (evs : list event) (w : world) : world :=
  foldl (step i) w evs.

(** The worlds after each event of [evs], in order. *)
Fixpoint trace (i : run_inputs) (evs : list event) (w : world) : list world :=
  match evs with
  | [] => []
  | ev :: evs' => step i w ev :: trace i evs' (step i w ev)
  end.

(** The guard of the expiry branch (lines 104-109): running, nothing left. *)
Definition expired (s : session_state) : bool :=
  timer_running s && negb (0 <? time_left s).

(** One pause/resume pair per entry [n] of the list, the timer left
    paused for [n] reruns in between. *)
Fixpoint breaks (bs : list nat) : list event :=
  match bs with
  | [] => []
  | n :: bs' => Pause :: repeat Tick n ++ Start :: breaks bs'
  end.

(** One tick of the countdown per entry [bs] of the list, preceded by
    the breaks [bs]. *)
Fixpoint schedule (ks : list (list nat)) : list event :=
  match ks with
  | [] => []
  | bs :: ks' => breaks bs ++ Tick :: schedule ks'
  end.

(** The number of [Pause] events of a list. *)
Definition pauses (evs : list event) : Z :=
  Z.of_nat (length (filter (fun ev => ev = Pause) evs)).

(** ** The dashboard: reductions over the loaded frame *)

#[global] Instance Q_eq_dec : EqDecision Q.
Proof. solve_decision. Defined.

#[global] Instance cell_eq_dec : EqDecision cell.
Proof. solve_decision. Defined.

#[global] Instance Q_countable : Countable Q.
Proof.
  refine (inj_countable' (fun q => (Qnum q, Qden q)) (fun p => Qmake p.1 p.2) _).
  by intros [].
Defined.

#[global] Instance cell_countable : Countable cell.
Proof.
  refine (inj_countable'
    (fun c => match c with
              | Str s => inl s
              | Int z => inr (inl z)
              | Float q => inr (inr (inl q))
              | NaN => inr (inr (inr tt))
              end)
    (fun x => match x with
              | inl s => Str s
              | inr (inl z) => Int z
              | inr (inr (inl q)) => Float q
              | inr (inr (inr _)) => NaN
              end) _).
  by intros [].
Defined.

(** [df[c]]: the cells of a column, top to bottom. *)
Definition column (df : DataFrame) (c : string) : result (list cell) :=
  if decide (c ∈ columns df)
  then Ok (map (fun r => row_get (columns df) r c) (rows df))
  else Raise KeyError.

(** The number in a cell of a numeric column; [None] for [NaN]. *)
Definition to_numeric (c : cell) : result (option Q) :=
  match c with
  | Int z => Ok (Some (inject_Z z))
  | Float q => Ok (Some q)
  | NaN => Ok None
  | Str _ => Raise TypeError
  end.

Fixpoint numeric (l : list cell) : result (list (option Q)) :=
  match l with
  | [] => Ok []
  | c :: l' => n ← to_numeric c; ns ← numeric l'; Ok (n :: ns)
  end.

(** Scan for the first position holding the best number; [NaN] is
    skipped, a later number replaces the best one only if strictly better. *)
Fixpoint first_best (better : Q -> Q -> bool) (l : list (option Q)) (i : nat)
    (best : option (nat * Q)) : option (nat * Q) :=
  match l with
  | [] => best
  | None :: l' => first_best better l' (S i) best
  | Some q :: l' =>
      match best with
      | None => first_best better l' (S i) (Some (i, q))
      | Some (_, b) =>
          if better q b
          then first_best better l' (S i) (Some (i, q))
          else first_best better l' (S i) best
      end
  end.

Definition Qgtb (q b : Q) : bool :=
  match (q ?= b)%Q with Gt => true | _ => false end.

Definition Qltb (q b : Q) : bool :=
  match (q ?= b)%Q with Lt => true | _ => false end.

Definition idx_best (better : Q -> Q -> bool) (l : list (option Q)) : result nat :=
  match first_best better l 0 None with
  | Some (i, _) => Ok i
  | None => Raise ValueError
  end.

(** [Series.idxmax()] and [Series.idxmin()] under a [RangeIndex]. *)
Definition idxmax : list (option Q) -> result nat := idx_best Qgtb.
Definition idxmin : list (option Q) -> result nat := idx_best Qltb.

(** [df.loc[i]] under a [RangeIndex]. *)
Definition loc (df : DataFrame) (i : nat) : result (list cell) :=
  match rows df !! i with
  | Some r => Ok r
  | None => Raise KeyError
  end.

(** Line 146. *)
Definition longest (df : DataFrame) : result (list cell) :=
  vs ← column df "Duration_Minutes"; ns ← numeric vs; i ← idxmax ns; loc df i.

(** Line 150. *)
Definition shortest (df : DataFrame) : result (list cell) :=
  vs ← column df "Duration_Minutes"; ns ← numeric vs; i ← idxmin ns; loc df i.

(** [df.empty] *)
Definition df_empty (df : DataFrame) : bool :=
  bool_decide (rows df = []) || bool_decide (columns df = []).

(** Lines 128 and 145-151: the records shown when the frame is not empty. *)
Definition records (df : DataFrame)
  : option (result (list cell) * result (list cell)) :=
  if df_empty df then None else Some (longest df, shortest df).

(** One row joins its group: a [NaN] key is dropped, a [NaN] value adds
    nothing ([dropna=True], [skipna]). *)
Definition add_to_group (m : gmap cell Q) (p : cell * option Q) : gmap cell Q :=
  match p.1 with
  | NaN => m
  | k => <[k := (default 0 (m !! k) + default 0 p.2)%Q]> m
  end.

(** [df.groupby(key)[val].sum()] as the map from group key to total. *)
Definition groupby_sum (key val : string) (df : DataFrame) : result (gmap cell Q) :=
  ks ← column df key;
  vs ← column df val;
  ns ← numeric vs;
  Ok (foldl add_to_group ∅ (zip ks ns)).

(** *** The same totals in float64 *)

Definition float_of_Z (z : Z) : float :=
  if z <? 0 then PrimFloat.opp (PrimFloat.of_uint63 (Uint63.of_Z (- z)))
  else PrimFloat.of_uint63 (Uint63.of_Z z).

(** The float64 nearest to a rational whose numerator and denominator
    are floats themselves (below 2^53): the correctly rounded quotient. *)
Definition float64 (q : Q) : float :=
  PrimFloat.div (float_of_Z (Qnum q)) (float_of_Z (Z.pos (Qden q))).

(** One row joins its group, in float64.  pandas adds the values of a
    group one after the other in row order; its [group_sum] carries the
    compensation of Kahan's summation along with each total, earlier
    versions add without ([compensated = false]). *)
Definition add_to_group64 (compensated : bool) (m : gmap cell (float * float))
    (p : cell * option Q) : gmap cell (float * float) :=
  match p.1 with
  | NaN => m
  | k =>
      let '(total, comp) := default (0%float, 0%float) (m !! k) in
      match p.2 with
      | None => <[k := (total, comp)]> m
      | Some q =>
          let y := PrimFloat.sub (float64 q) comp in
          let t := PrimFloat.add total y in
          let comp' :=
            if compensated then PrimFloat.sub (PrimFloat.sub t total) y
            else 0%float in
          <[k := (t, comp')]> m
      end
  end.

(** [df.groupby(key)[val].sum()] on float64 values. *)
Definition groupby_sum64 (compensated : bool) (key val : string) (df : DataFrame)
  : result (gmap cell float) :=
  ks ← column df key;
  vs ← column df val;
  ns ← numeric vs;
  Ok (fst <$> foldl (add_to_group64 compensated) ∅ (zip ks ns)).

(** The float64 total of one group. *)
Definition group_total64 (compensated : bool) (key val : string) (df : DataFrame)
    (k : cell) : result (option float) :=
  m ← groupby_sum64 compensated key val df; Ok (m !! k).

(** [Series.sort_values(ascending=True)] on the (label, value) pairs. *)
Definition value_le (p1 p2 : cell * Q) : Prop := (p1.2 <= p2.2)%Q.

#[global] Instance value_le_dec : RelDecision value_le :=
  fun p1 p2 => decide (Qnum p1.2 * QDen p2.2 <= Qnum p2.2 * QDen p1.2).

Definition sort_values (s : list (cell * Q)) : list (cell * Q) :=
  merge_sort value_le s.

(** Line 167. *)
Definition subject_stats (df : DataFrame) : result (list (cell * Q)) :=
  m ← groupby_sum "Subject" "Duration_Minutes" df;
  Ok (sort_values (map_to_list m)).

(** [s[k]] when the label is there. *)
Definition series_get (s : list (cell * Q)) (k : cell) : option Q :=
  (list_to_map s : gmap cell Q) !! k.

(** ** Sample data *)

(** A file written before the Breaks column existed. *)
Definition earlier_format : DataFrame :=
  {| columns := ["Date"; "Subject"; "Topic"; "Duration_Minutes"];
     rows := [[Str "2024-01-01 10:00"; Str "Math"; Str "Algebra"; Float (25 # 1)];
              [Str "2024-01-02 09:30"; Str "Bio"; Str "Cells"; Float (45 # 1)]] |}.

(** A file holding one session. *)
Definition one_session : DataFrame :=
  {| columns := canonical_columns;
     rows := [[Str "2024-01-01 10:00"; Str "Math"; Str "Algebra"; Float (25 # 1); Int 1]] |}.

(** The widgets at their defaults, no click, a working disk. *)
Definition default_inputs : run_inputs :=
  {| subject := "General"; topic := "Study Session"; hours := 0; minutes := 25;
     clicked := NoButton; now := "2024-01-03 08:00"; fault := NoFault |}.

(** The worlds that runs of the script reach from a fresh session,
    whatever the file holds at first; the widgets keep hours and minutes
    within their bounds. *)
Inductive reachable : world -> Prop :=
  | reach_fresh fs : reachable (fresh_state, fs)
  | reach_run i w :
      valid_duration (hours i) (minutes i) -> reachable w ->
      reachable (script i w).1.

(** Ten ticks, a pause with one rerun before the resume, fifty more ticks. *)
Definition one_break_schedule : list (list nat) :=
  repeat [] 10 ++ [[1%nat]] ++ repeat [] 49.

(** The number under Duration_Minutes in a row laid out along [cols]. *)
Definition duration_of (cols : list string) (r : list cell) : result (option Q) :=
  to_numeric (row_get cols r "Duration_Minutes").

(** Sessions with equal durations at both ends. *)
Definition tied_sessions : DataFrame :=
  {| columns := canonical_columns;
     rows := [[Str "2024-01-01 10:00"; Str "Math"; Str "Algebra"; Float (25 # 1); Int 1];
              [Str "2024-01-02 10:00"; Str "Bio"; Str "Cells"; Float (45 # 1); Int 0];
              [Str "2024-01-03 10:00"; Str "Math"; Str "Sets"; Float (45 # 1); Int 2];
              [Str "2024-01-04 10:00"; Str "Art"; Str "Ink"; Float (10 # 1); Int 0];
              [Str "2024-01-05 10:00"; Str "Bio"; Str "Genes"; Float (10 # 1); Int 0]] |}.

(** Sessions of one subject with durations that are not whole minutes. *)
Definition split_minutes : DataFrame :=
  {| columns := canonical_columns;
     rows := [[Str "2024-03-01 10:00"; Str "Math"; Str "Sets"; Float (6 # 10); Int 0];
              [Str "2024-03-02 10:00"; Str "Math"; Str "Sets"; Float (6 # 10); Int 0];
              [Str "2024-03-03 10:00"; Str "Math"; Str "Sets"; Float (17 # 100); Int 0]] |}.

(** What the scan of [first_best] knows after the prefix [p], for "at most
    as good" [le] and "strictly worse" [lt]: nothing if no number was seen,
    else the place [j] of a number [q] that every number of [p] is at most
    as good as, and every earlier one strictly worse than. *)
Definition scanned (le lt : Q -> Q -> Prop)
    (p : list (option Q)) (best : option (nat * Q)) : Prop :=
  match best with
  | None => forall k q, p !! k ≠ Some (Some q)
  | Some (j, q) =>
      p !! j = Some (Some q) /\
      forall k q', p !! k = Some (Some q') -> le q' q /\ (k < j -> lt q' q)%nat
  end.

(** The total of the numbers paired with key [k], added in list order. *)
Definition total_of (k : cell) (ps : list (cell * option Q)) : option Q :=
  match filter (fun p => p.1 = k) ps with
  | [] => None
  | ps_k => Some (foldl Qplus 0%Q ((fun p => default 0%Q p.2) <$> ps_k))
  end.

(** ** The rest of the script *)

(** [f"{z:02}"]: the decimal text, a zero in front if it is one character
    long (a sign counts as a character). *)
Definition pad2 (z : Z) : string :=
  let d := str_of_int z in
  if (String.length d <? 2)%nat then "0" +:+ d else d.

(** Lines 36-39. [divmod] is floor division and its remainder. *)
Definition format_time (seconds : Z) : string :=
  let '(h, rem) := (seconds / 3600, seconds mod 3600) in
  let '(m, s) := (rem / 60, rem mod 60) in
  pad2 h +:+ ":" +:+ pad2 m +:+ ":" +:+ pad2 s.

(** A session as [save_session] receives it, with the clock reading. *)
Record session : Type := mkSession {
  s_date : string;
  s_subject : string;
  s_topic : string;
  s_minutes : Q;
  s_breaks : Z
}.

(** The row that [save_session] builds for a session. *)
Definition entry_row (x : session) : list cell :=
  [Str (s_date x); Str (s_subject x); Str (s_topic x);
   Float (round2 (s_minutes x)); Int (s_breaks x)].

(** A cell of plain text. *)
Definition is_plain (c : cell) : bool :=
  match c with Str s => plain_text s | _ => false end.

(** The numbers of a session within what float64 and int64 hold and the
    CSV text gives back exactly: a duration that is not negative, with
    less than 2^53 hundredths, and a break count that is not negative,
    within int64. *)
Definition session_bounds (q : Q) (b : Z) : bool :=
  Qle_bool 0 q && Qle_bool q (inject_Z (10 ^ 13)) &&
  bool_decide (0 <= b < 2 ^ 63).

(** A row as the script writes it and reads it back: a date, a subject
    and a topic that are plain text, a float duration of at most two
    decimals and an integer break count, both within [session_bounds]. *)
Definition own_row (r : list cell) : bool :=
  match r with
  | [Str d; Str s; Str t; Float q; Int b] =>
      plain_text d && plain_text s && plain_text t &&
      bool_decide (round2 q = q) && session_bounds q b
  | _ => false
  end.

(** The file after [save_session] on a working disk. *)
Definition append (fs : filesystem) (x : session) : filesystem :=
  (save_session (s_date x) NoFault (s_subject x) (s_topic x)
     (s_minutes x) (s_breaks x) fs).1.

(** *** The other views of the dashboard *)

(** [df[c]] read as numbers. *)
Definition numeric_column (df : DataFrame) (c : string) : result (list (option Q)) :=
  vs ← column df c; numeric vs.

(** [Series.sum()]: [NaN] adds nothing. *)
Definition series_sum (ns : list (option Q)) : Q :=
  foldl (fun acc n => (acc + default 0 n)%Q) 0%Q ns.

(** Numbers that float64 adds without rounding, in any order and any
    grouping: whole, not negative, with a sum of at most 2^53. *)
Definition added_exactly (ns : list (option Q)) : Prop :=
  Forall (fun n => match n with
                   | Some q => exists k : Z, 0 <= k /\ (q == inject_Z k)%Q
                   | None => True
                   end) ns /\
  (series_sum ns <= inject_Z (2 ^ 53))%Q.

(** [Series.mean()]: the sum of the numbers over their count; [NaN],
    here [None], when the column holds no number. *)
Definition series_mean (ns : list (option Q)) : option Q :=
  match omap id ns with
  | [] => None
  | vs => Some (series_sum ns / inject_Z (Z.of_nat (length vs)))%Q
  end.

(** Line 130. *)
Definition total_time (df : DataFrame) : result Q :=
  ns ← numeric_column df "Duration_Minutes"; Ok (series_sum ns).

(** Line 131. *)
Definition total_sessions (df : DataFrame) : nat := length (rows df).

(** Line 132. *)
Definition avg_time (df : DataFrame) : result (option Q) :=
  ns ← numeric_column df "Duration_Minutes"; Ok (series_mean ns).

(** The number under Breaks in a row laid out along [cols]. *)
Definition breaks_of (cols : list string) (r : list cell) : result (option Q) :=
  to_numeric (row_get cols r "Breaks").

(** Lines 154-158: the most distracted session, or [None] for the
    message that no breaks were recorded. *)
Definition most_breaks (df : DataFrame) : result (option (list cell)) :=
  ns ← numeric_column df "Breaks";
  if Qltb 0 (series_sum ns)
  then i ← idxmax ns; r ← loc df i; Ok (Some r)
  else Ok None.

(** [Series.idxmax()] and [Series.idxmin()] on a series with labels:
    the label of the first best value. *)
Definition series_idx_best (better : Q -> Q -> bool) (s : list (cell * Q))
  : result cell :=
  i ← idx_best better ((fun p => Some p.2) <$> s);
  match s !! i with
  | Some p => Ok p.1
  | None => Raise KeyError
  end.

(** Lines 171-172. *)
Definition most_studied_sub (df : DataFrame) : result cell :=
  s ← subject_stats df; series_idx_best Qgtb s.

Definition least_studied_sub (df : DataFrame) : result cell :=
  s ← subject_stats df; series_idx_best Qltb s.

(** [Series.tail(n)]: the last [n] entries. *)
Definition series_tail {A} (n : nat) (l : list A) : list A :=
  drop (length l - n) l.

(** Line 177. *)
Definition topic_stats (df : DataFrame) : result (list (cell * Q)) :=
  m ← groupby_sum "Topic" "Duration_Minutes" df;
  Ok (series_tail 5 (sort_values (map_to_list m))).

(** The order in which [sort_values] places the cells of one column:
    [NaN] below everything, numbers by value, text by code points.  A
    column is never sorted across numbers and text (see [history]); the
    order puts numbers first to be total. *)
Definition cell_le (c1 c2 : cell) : Prop :=
  match to_numeric c1, to_numeric c2 with
  | Ok None, _ => True
  | _, Ok None => False
  | Ok (Some q1), Ok (Some q2) => (q1 <= q2)%Q
  | Ok (Some _), Raise _ => True
  | Raise _, Ok (Some _) => False
  | Raise _, Raise _ =>
      match c1, c2 with
      | Str s1, Str s2 => String.le s1 s2
      | _, _ => True
      end
  end.

(** Later dates first. *)
Definition date_ge (cols : list string) (r1 r2 : list cell) : Prop :=
  cell_le (row_get cols r2 "Date") (row_get cols r1 "Date").

#[global] Instance cell_le_dec : RelDecision cell_le.
Proof.
  intros c1 c2. unfold cell_le.
  destruct (to_numeric c1) as [[q1|]|e1], (to_numeric c2) as [[q2|]|e2];
    try apply _.
  - exact (decide (Qnum q1 * QDen q2 <= Qnum q2 * QDen q1)).
  - destruct c1, c2; apply _.
Defined.

#[global] Instance date_ge_dec cols : RelDecision (date_ge cols).
Proof. intros r1 r2. unfold date_ge. apply _. Defined.

(** Line 183: [df.sort_values(by="Date", ascending=False)].  Text cannot be
    compared with numbers; rows without a date come last. *)
Definition history (df : DataFrame) : result (list (list cell)) :=
  ks ← column df "Date";
  if existsb is_text ks && existsb is_number ks
  then Raise TypeError
  else Ok (merge_sort (date_ge (columns df)) (rows df)).

(** Whether a call returned. *)
Definition returns {A} (r : result A) : Prop :=
  match r with Ok _ => True | Raise _ => False end.

(** Six sessions on six topics. *)
Definition six_topics : DataFrame :=
  {| columns := canonical_columns;
     rows := [[Str "2024-02-01 09:00"; Str "Math"; Str "Sets"; Float (30 # 1); Int 0];
              [Str "2024-02-02 09:00"; Str "Math"; Str "Groups"; Float (10 # 1); Int 1];
              [Str "2024-02-03 09:00"; Str "Bio"; Str "Cells"; Float (60 # 1); Int 0];
              [Str "2024-02-04 09:00"; Str "Bio"; Str "Genes"; Float (20 # 1); Int 3];
              [Str "2024-02-05 09:00"; Str "Art"; Str "Ink"; Float (50 # 1); Int 0];
              [Str "2024-02-06 09:00"; Str "Art"; Str "Clay"; Float (40 # 1); Int 0]] |}.

(** The values of a series added up. *)
Definition series_total (s : list (cell * Q)) : Q :=
  foldr (fun p acc => (p.2 + acc)%Q) 0%Q s.
(** * Properties *)

(** Closes a decidable goal without variables, such as membership of a
    label in a list of labels, by evaluation. *)
Ltac by_evaluation := by apply (bool_decide_unpack _).

(** ** Column lookup *)

Section row_lookup.
Implicit Types (c : string) (cols : list string) (r : list cell).

Lemma index_of_None c cols : index_of c cols = None <-> c ∉ cols.
Proof.
  induction cols as [|c' cols IH]; simpl.
  - split; [intros _; apply not_elem_of_nil | done].
  - case_decide as Hc; [subst; split; [done | intros []; left] |].
    rewrite fmap_None, IH, not_elem_of_cons. tauto.
Qed.

Lemma index_of_Some c cols i :
  index_of c cols = Some i -> cols !! i = Some c.
Proof.
  revert i. induction cols as [|c' cols IH]; intros i; simpl; [done|].
  case_decide as Hc; [intros [= <-]; by subst |].
  destruct (index_of c cols) as [j|]; simpl; [|done].
  intros [= <-]. by apply IH.
Qed.

Lemma index_of_elem c cols : c ∈ cols -> is_Some (index_of c cols).
Proof.
  intros Hc. destruct (index_of c cols) eqn:E; [eauto|].
  by apply index_of_None in E.
Qed.

Lemma index_of_app_l c cols cols' :
  c ∈ cols -> index_of c (cols ++ cols') = index_of c cols.
Proof.
  induction cols as [|c' cols IH]; simpl; [by intros ?%elem_of_nil|].
  intros Hc. case_decide; [done|].
  apply elem_of_cons in Hc as [?|Hc]; [done|]. by rewrite IH.
Qed.

Lemma index_of_app_r c cols cols' :
  c ∉ cols -> index_of c (cols ++ cols') = (fun i => length cols + i)%nat <$> index_of c cols'.
Proof.
  induction cols as [|c' cols IH]; simpl.
  - intros _. by destruct (index_of c cols').
  - intros [Hne Hc]%not_elem_of_cons. case_decide; [done|].
    rewrite IH by done. by destruct (index_of c cols').
Qed.

Lemma row_get_missing c cols r : c ∉ cols -> row_get cols r c = NaN.
Proof. intros Hc%index_of_None. unfold row_get. by rewrite Hc. Qed.

Lemma length_reindex cols' cols r : length (reindex cols' cols r) = length cols'.
Proof. unfold reindex. by rewrite length_map. Qed.

(** A row built label by label reads under each label what was built for it. *)
Lemma row_get_fmap c cols (g : string -> cell) :
  c ∈ cols -> row_get cols (g <$> cols) c = g c.
Proof.
  intros [i Hi]%index_of_elem. unfold row_get. rewrite Hi.
  apply index_of_Some in Hi. by rewrite list_lookup_fmap, Hi.
Qed.

(** Reading a re-laid row under its new layout gives the old reading. *)
Lemma row_get_reindex c cols' cols r :
  c ∈ cols' -> row_get cols' (reindex cols' cols r) c = row_get cols r c.
Proof. apply (row_get_fmap c cols' (row_get cols r)). Qed.

(** Cells appended behind a full row are invisible to the old columns. *)
Lemma row_get_app c cols cols' r r' :
  c ∈ cols -> length r = length cols ->
  row_get (cols ++ cols') (r ++ r') c = row_get cols r c.
Proof.
  intros Hc Hlen. unfold row_get. rewrite index_of_app_l by done.
  destruct (index_of_elem _ _ Hc) as [i Hi]. rewrite Hi.
  apply index_of_Some, lookup_lt_Some in Hi.
  rewrite lookup_app_l by lia. done.
Qed.

Lemma index_of_lookup_NoDup cols i c :
  NoDup cols -> cols !! i = Some c -> index_of c cols = Some i.
Proof.
  intros Hnd. revert i. induction Hnd as [|c' cols Hc' Hnd IH]; intros i; [done|].
  destruct i as [|i]; simpl.
  - intros [= ->]. by rewrite decide_True.
  - intros Hi. rewrite decide_False.
    + by rewrite (IH i Hi).
    + intros ->. apply Hc'. by eapply list_elem_of_lookup_2.
Qed.

(** A full row read along its own layout is the row itself. *)
Lemma reindex_id cols r :
  NoDup cols -> length r = length cols -> reindex cols cols r = r.
Proof.
  intros Hnd Hlen. apply list_eq. intros i. unfold reindex.
  rewrite list_lookup_fmap.
  destruct (cols !! i) as [c|] eqn:Hc; simpl.
  - unfold row_get. rewrite (index_of_lookup_NoDup cols i c) by done.
    apply lookup_lt_Some in Hc.
    destruct (lookup_lt_is_Some_2 r i) as [x Hx]; [lia|]. by rewrite Hx.
  - symmetry. apply lookup_ge_None. apply lookup_ge_None in Hc. lia.
Qed.
End row_lookup.

(** ** Frames column by column *)

Section columnwise.
Implicit Types (f : list cell -> list cell) (df : DataFrame) (c : string).

Lemma length_rows_by_column f df :
  length (rows (by_column f df)) = length (rows df).
Proof. simpl. by rewrite length_fmap, length_seq. Qed.

Lemma rows_by_column_lookup f df i :
  (i < length (rows df))%nat ->
  rows (by_column f df) !! i =
    Some ((fun c => default NaN (f (column_cells df c) !! i)) <$> columns df).
Proof. intros Hi. simpl. by rewrite list_lookup_fmap, lookup_seq_lt. Qed.

(** The cell of row [i] under a label is cell [i] of the rebuilt column. *)
Lemma row_get_by_column f df i r c :
  c ∈ columns df -> rows (by_column f df) !! i = Some r ->
  row_get (columns df) r c = default NaN (f (column_cells df c) !! i).
Proof.
  intros Hc Hr.
  assert (Hi : (i < length (rows df))%nat).
  { apply lookup_lt_Some in Hr. by rewrite length_rows_by_column in Hr. }
  rewrite rows_by_column_lookup in Hr by done. injection Hr as <-.
  by apply (row_get_fmap c (columns df)
              (fun c => default NaN (f (column_cells df c) !! i))).
Qed.

Lemma length_column_cells df c : length (column_cells df c) = length (rows df).
Proof. unfold column_cells. by rewrite length_fmap. Qed.

(** The columns of the rebuilt frame are the rebuilt columns. *)
Lemma column_cells_by_column f df c :
  c ∈ columns df -> (forall l, length (f l) = length l) ->
  column_cells (by_column f df) c = f (column_cells df c).
Proof.
  intros Hc Hlen. apply list_eq. intros i. unfold column_cells at 1.
  rewrite list_lookup_fmap.
  destruct (decide (i < length (rows df))%nat) as [Hi|Hi].
  - rewrite rows_by_column_lookup by done. cbn [fmap option_fmap option_map].
    change (columns (by_column f df)) with (columns df).
    rewrite (row_get_fmap c (columns df)
               (fun c => default NaN (f (column_cells df c) !! i))) by done.
    destruct (lookup_lt_is_Some_2 (f (column_cells df c)) i) as [x Hx].
    + by rewrite Hlen, length_column_cells.
    + by rewrite Hx.
  - rewrite (lookup_ge_None_2 (rows (by_column f df))), (lookup_ge_None_2 (f _)).
    + done.
    + rewrite Hlen, length_column_cells. lia.
    + rewrite length_rows_by_column. lia.
Qed.

(** A frame with distinct labels and full rows whose columns the
    rebuilding leaves alone is left alone. *)
Lemma by_column_fixed f df :
  NoDup (columns df) ->
  Forall (fun r => length r = length (columns df)) (rows df) ->
  (forall c, c ∈ columns df -> f (column_cells df c) = column_cells df c) ->
  by_column f df = df.
Proof.
  intros Hnd Hfull Hf. destruct df as [cols rs]. simpl in *.
  unfold by_column. cbn [columns rows]. f_equal.
  apply list_eq. intros i. rewrite list_lookup_fmap.
  destruct (rs !! i) as [r|] eqn:Hr.
  - rewrite lookup_seq_lt by (by eapply lookup_lt_Some). simpl. f_equal.
    transitivity (reindex cols cols r);
      [|apply reindex_id; [done | by apply (proj1 (Forall_lookup _ _) Hfull i)]].
    unfold reindex. apply list_fmap_ext. intros j c Hj.
    rewrite Hf by (by eapply list_elem_of_lookup_2).
    unfold column_cells. cbn [columns rows]. by rewrite list_lookup_fmap, Hr.
  - rewrite lookup_seq_ge by (by apply lookup_ge_None). done.
Qed.
End columnwise.

(** ** Dtypes and the reader *)

(** Closes a decidable goal without variables by evaluation in the
    virtual machine. *)
Ltac by_vm_evaluation := apply (bool_decide_unpack _); vm_compute; exact I.

Lemma forallb_lookup {A} (p : A -> bool) (l : list A) i x :
  forallb p l = true -> l !! i = Some x -> p x = true.
Proof.
  intros H Hi. apply (proj1 (forallb_forall p l) H).
  apply list_elem_of_In. by eapply list_elem_of_lookup_2.
Qed.

Section dtypes.
Implicit Types (l : list cell) (c : cell) (s : string).

Lemma length_upcast l : length (upcast l) = length l.
Proof. unfold upcast. repeat case_match; by rewrite ?length_fmap. Qed.

Lemma length_infer_column l : length (infer_column l) = length l.
Proof. unfold infer_column. cbv zeta. repeat case_match; by rewrite ?length_fmap. Qed.

(** [upcast] leaves the cells alone or turns the integers of a column
    without text into floats. *)
Lemma upcast_cases l :
  upcast l = l \/ (existsb is_text l = false /\ upcast l = as_float <$> l).
Proof.
  unfold upcast. destruct (existsb is_text l); [by left|].
  destruct (forallb is_int l); [by left | by right].
Qed.

Lemma to_numeric_as_float c : to_numeric (as_float c) = to_numeric c.
Proof. by destruct c. Qed.

Lemma numeric_as_float l : numeric (as_float <$> l) = numeric l.
Proof.
  induction l as [|c l IH]; [done|].
  rewrite fmap_cons. cbn [numeric]. by rewrite to_numeric_as_float, IH.
Qed.

(** The numbers of a column do not depend on its dtype. *)
Lemma numeric_upcast l : numeric (upcast l) = numeric l.
Proof. destruct (upcast_cases l) as [->|[_ ->]]; [done | apply numeric_as_float]. Qed.

Lemma existsb_is_text_as_float l :
  existsb is_text (as_float <$> l) = existsb is_text l.
Proof.
  induction l as [|c l IH]; [done|].
  rewrite fmap_cons. cbn [existsb]. rewrite IH. by destruct c.
Qed.

Lemma as_float_idem l : as_float <$> (as_float <$> l) = as_float <$> l.
Proof.
  rewrite <- list_fmap_compose. apply list_fmap_ext. intros i c _. by destruct c.
Qed.

Lemma upcast_idem l : upcast (upcast l) = upcast l.
Proof.
  destruct (upcast_cases l) as [H|[Ht H]]; rewrite !H; [done|].
  unfold upcast. rewrite existsb_is_text_as_float, Ht.
  destruct (forallb is_int (as_float <$> l)); [done | apply as_float_idem].
Qed.

Lemma numeric_cons_Ok c l ns :
  numeric (c :: l) = Ok ns <->
  exists n ns0, to_numeric c = Ok n /\ numeric l = Ok ns0 /\ ns = n :: ns0.
Proof.
  simpl. destruct (to_numeric c) as [n|e]; simpl.
  - destruct (numeric l) as [ns0|e]; simpl.
    + split; [intros [= <-]; by exists n, ns0 |].
      by intros (? & ? & [= <-] & [= <-] & ->).
    + split; [done | by intros (? & ? & _ & ? & _)].
  - split; [done | by intros (? & ? & ? & _)].
Qed.

Lemma numeric_Forall2 l ns :
  numeric l = Ok ns -> Forall2 (fun c n => to_numeric c = Ok n) l ns.
Proof.
  revert ns. induction l as [|c l IH]; intros ns.
  - intros [= <-]. constructor.
  - intros (n & ns0 & Hn & Hl & ->)%numeric_cons_Ok. constructor; auto.
Qed.

Lemma numeric_no_text l ns : numeric l = Ok ns -> existsb is_text l = false.
Proof.
  revert ns. induction l as [|c l IH]; intros ns; [done|].
  intros (n & ns' & Hn & Hl & _)%numeric_cons_Ok.
  cbn [existsb]. rewrite (IH ns' Hl). by destruct c.
Qed.

(** The reader on a column without text: the dtype of the cells. *)
Lemma infer_column_no_text l :
  existsb is_text l = false -> infer_column l = upcast l.
Proof.
  intros Ht.
  assert (H : existsb is_text_field (read_field <$> l) = false /\
              forallb is_int_field (read_field <$> l) = forallb is_int l).
  { induction l as [|c l IH]; [done|]. cbn [existsb] in Ht.
    apply orb_false_iff in Ht as [Hc Hl]. destruct (IH Hl) as [IH1 IH2].
    rewrite fmap_cons. cbn [existsb forallb]. rewrite IH1, IH2. by destruct c. }
  destruct H as [H1 H2].
  unfold infer_column, upcast. cbv zeta. rewrite H1, H2, Ht.
  destruct (forallb is_int l) eqn:Hint.
  - rewrite <- list_fmap_compose. rewrite <- (list_fmap_id l) at 2.
    apply list_fmap_ext. intros i c Hi.
    apply (forallb_lookup _ _ _ _ Hint) in Hi. by destruct c.
  - rewrite <- list_fmap_compose. apply list_fmap_ext. intros i c Hi.
    assert (Hc : is_text c = false).
    { destruct (is_text c) eqn:E; [|done].
      assert (existsb is_text l = true); [|congruence].
      apply existsb_exists. exists c. split; [|done].
      apply list_elem_of_In. by eapply list_elem_of_lookup_2. }
    by destruct c.
Qed.

(** What is written for a column of numbers is read back in its dtype. *)
Lemma infer_column_upcast_numeric l ns :
  numeric l = Ok ns -> infer_column (upcast l) = upcast l.
Proof.
  intros Hn. rewrite infer_column_no_text; [apply upcast_idem|].
  apply (numeric_no_text _ ns). by rewrite numeric_upcast.
Qed.

(** *** Plain text *)

Lemma na_values_reserved :
  Forall (fun w => lower_case (trim w) ∈ reserved_words) na_values.
Proof. by_vm_evaluation. Qed.

Lemma plain_text_read s : plain_text s = true -> read_field (Str s) = TextField.
Proof.
  unfold plain_text. intros [[_ Hnum]%andb_true_iff Hres]%andb_true_iff.
  cbn [read_field]. rewrite bool_decide_eq_false_2.
  - unfold parse_number. by rewrite Hnum.
  - intros Hna. apply negb_true_iff, bool_decide_eq_false in Hres. apply Hres.
    by apply (proj1 (Forall_forall _ _) na_values_reserved).
Qed.

(** A column that holds a text is read back as text. *)
Lemma infer_column_with_text l :
  existsb is_text_field (read_field <$> l) = true ->
  infer_column l =
    (fun c => match read_field c with
              | Missing => NaN
              | _ => Str (cell_text c)
              end) <$> l.
Proof. intros H. unfold infer_column. cbv zeta. by rewrite H. Qed.

Lemma infer_column_snoc_plain l s :
  plain_text s = true -> last (infer_column (l ++ [Str s])) = Some (Str s).
Proof.
  intros Hs. pose proof (plain_text_read s Hs) as Hread.
  rewrite infer_column_with_text.
  - rewrite fmap_last, last_snoc. cbn [fmap option_fmap option_map].
    by rewrite Hread.
  - rewrite fmap_app, List.existsb_app, fmap_cons. cbn [existsb].
    rewrite Hread. apply orb_true_r.
Qed.

(** Columns of plain text, of floats and of integers are read back as
    they are, and are of one dtype. *)
Lemma infer_column_plain l : forallb is_plain l = true -> infer_column l = l.
Proof.
  intros Hl. destruct l as [|c0 l0] eqn:El; [done|]. rewrite <- El in *.
  assert (Hall : forall i c, l !! i = Some c -> read_field c = TextField /\ exists s, c = Str s).
  { intros i c Hi. apply (forallb_lookup _ _ _ _ Hl) in Hi.
    destruct c as [s| | |]; try done. split; [by apply plain_text_read | by exists s]. }
  rewrite infer_column_with_text.
  - rewrite <- (list_fmap_id l) at 2. apply list_fmap_ext. intros i c Hi.
    destruct (Hall i c Hi) as [-> [s ->]]. done.
  - rewrite El, fmap_cons. cbn [existsb].
    destruct (Hall 0%nat c0) as [-> _]; [by rewrite El|]. done.
Qed.

Lemma is_plain_text c : is_plain c = true -> is_text c = true.
Proof. by destruct c. Qed.

Lemma upcast_fixed l :
  forallb is_plain l = true \/ forallb is_float l = true \/ forallb is_int l = true ->
  upcast l = l.
Proof.
  intros H. unfold upcast.
  destruct (existsb is_text l) eqn:Ht; [done|].
  destruct (forallb is_int l) eqn:Hint; [done|].
  rewrite <- (list_fmap_id l) at 2. apply list_fmap_ext. intros i c Hi.
  destruct H as [H|[H|H]]; [| |congruence];
    apply (forallb_lookup _ _ _ _ H) in Hi; by destruct c.
Qed.

Lemma infer_column_fixed l :
  forallb is_plain l = true \/ forallb is_float l = true \/ forallb is_int l = true ->
  infer_column l = l.
Proof.
  intros [H|H]; [by apply infer_column_plain|].
  rewrite infer_column_no_text; [apply upcast_fixed; by right|].
  destruct (existsb is_text l) eqn:E; [|done].
  apply existsb_exists in E as (c & Hc%list_elem_of_In & Ht).
  apply list_elem_of_lookup_1 in Hc as [i Hi].
  destruct H as [H|H]; apply (forallb_lookup _ _ _ _ H) in Hi; by destruct c.
Qed.
End dtypes.

(** ** The session store *)

Lemma breaks_canonical : "Breaks" ∈ canonical_columns.
Proof. by_evaluation. Qed.

Lemma columns_concat df1 df2 :
  columns (concat df1 df2) =
    columns df1 ++ filter (fun c => c ∉ columns df1) (columns df2).
Proof. reflexivity. Qed.

Lemma columns_concat_l df1 df2 c : c ∈ columns df1 -> c ∈ columns (concat df1 df2).
Proof. rewrite columns_concat, elem_of_app. tauto. Qed.

Lemma columns_concat_r df1 df2 c : c ∈ columns df2 -> c ∈ columns (concat df1 df2).
Proof.
  rewrite columns_concat. intros Hc. apply elem_of_app.
  destruct (decide (c ∈ columns df1)); [by left|].
  right. by apply list_elem_of_filter.
Qed.

Lemma length_rows_concat df1 df2 :
  length (rows (concat df1 df2)) = (length (rows df1) + length (rows df2))%nat.
Proof.
  unfold concat. rewrite length_rows_by_column. cbn [rows].
  by rewrite length_app, !length_map.
Qed.

(** A column of the concatenation: the cells of the first frame, then
    those of the second, in their common dtype. *)
Lemma column_cells_concat df1 df2 c :
  c ∈ columns (concat df1 df2) ->
  column_cells (concat df1 df2) c =
    upcast (column_cells df1 c ++ column_cells df2 c).
Proof.
  intros Hc. unfold concat.
  rewrite column_cells_by_column by (done || apply length_upcast).
  f_equal. unfold column_cells. cbn [columns rows].
  rewrite fmap_app.
  f_equal; apply list_eq; intros i; rewrite !list_lookup_fmap;
    (destruct (rows _ !! i) as [r|]; [|done]); simpl; f_equal;
    apply row_get_reindex; exact Hc.
Qed.

Lemma column_cells_reread df c :
  c ∈ columns df -> column_cells (reread df) c = infer_column (column_cells df c).
Proof. intros Hc. apply column_cells_by_column; [done | apply length_infer_column]. Qed.

(** The cell of the last row under a label is the last cell of the column. *)
Lemma last_column_cells df c r :
  last (rows df) = Some r ->
  last (column_cells df c) = Some (row_get (columns df) r c).
Proof. intros Hr. unfold column_cells. by rewrite fmap_last, Hr. Qed.

Lemma last_is_Some {A} (l : list A) n : length l = S n -> is_Some (last l).
Proof.
  intros Hl. rewrite last_lookup, Hl. apply lookup_lt_is_Some. simpl. lia.
Qed.

Lemma numeric_app l1 l2 ns1 ns2 :
  numeric l1 = Ok ns1 -> numeric l2 = Ok ns2 -> numeric (l1 ++ l2) = Ok (ns1 ++ ns2).
Proof.
  revert ns1. induction l1 as [|c l1 IH]; intros ns1.
  - by intros [= <-].
  - intros (n & ns0 & Hn & Hl & ->)%numeric_cons_Ok H2.
    apply numeric_cons_Ok. exists n, (ns0 ++ ns2). split; [done|]. split; [|done].
    by apply IH.
Qed.


(** The rounded integer is within one half of the rational, and even when
    exactly one half away. *)
Lemma round_half_even_nearest (q : Q) :
  let z := round_half_even q in
  (- (1 # 2) <= q - inject_Z z <= 1 # 2)%Q /\
  ((q - inject_Z z == 1 # 2 \/ q - inject_Z z == - (1 # 2))%Q -> Z.even z = true).
Proof.
  destruct q as [n d]. unfold round_half_even. cbn [Qnum Qden].
  pose proof (Z.div_mod n (Z.pos d) ltac:(lia)) as Hdm.
  pose proof (Z.mod_pos_bound n (Z.pos d) ltac:(lia)) as Hr.
  set (f := n / Z.pos d) in *. set (r := n mod Z.pos d) in *.
  assert (Hcases :
    forall z, ((n # d) - inject_Z z)%Q = Qmake (n - z * Z.pos d) d).
  { intros z. unfold Qminus, Qplus, Qopp, inject_Z. cbn [Qnum Qden].
    f_equal; [lia | by rewrite Pos.mul_1_r]. }
  destruct (2 * r <? Z.pos d) eqn:H1; [apply Z.ltb_lt in H1|apply Z.ltb_ge in H1].
  { cbv zeta. rewrite Hcases. unfold Qle, Qeq. cbn [Qnum Qden Qopp].
    split; [nia|]. intros [H|H]; nia. }
  destruct (Z.pos d <? 2 * r) eqn:H2; [apply Z.ltb_lt in H2|apply Z.ltb_ge in H2].
  { cbv zeta. rewrite Hcases. unfold Qle, Qeq. cbn [Qnum Qden Qopp].
    split; [nia|]. intros [H|H]; nia. }
  destruct (Z.even f) eqn:Hev; cbv zeta; rewrite Hcases;
    unfold Qle, Qeq; cbn [Qnum Qden Qopp].
  - split; [nia | done].
  - split; [nia|]. intros _. rewrite Z.even_add, Hev. done.
Qed.

(** A frame that already has the column is loaded as it is stored. *)
Lemma load_data_with_breaks df :
  "Breaks" ∈ columns df -> load_data (Some (Csv df)) = Ok df.
Proof. intros Hb. simpl. by rewrite decide_False by (by intros []). Qed.

(** C9: when the persisted file is absent, [load_data] does not raise and
    returns a table without rows whose columns are exactly Date, Subject,
    Topic, Duration_Minutes and Breaks, each once. *)
Theorem load_data_absent :
  exists df,
    load_data None = Ok df /\
    rows df = [] /\
    NoDup (columns df) /\
    forall c, c ∈ columns df <->
      c = "Date" \/ c = "Subject" \/ c = "Topic" \/
      c = "Duration_Minutes" \/ c = "Breaks".
Proof.
  eexists. split; [reflexivity|]. split; [reflexivity|]. split.
  - by_evaluation.
  - intros c. unfold canonical_columns. cbn [columns].
    rewrite !elem_of_cons, elem_of_nil. tauto.
Qed.

(** C6: a persisted table without the Breaks column is loaded with that
    column added: the load does not raise, keeps the number of rows, every
    row reads [Breaks = 0], and every other column reads in every row what
    it reads in the file. *)
Theorem load_data_defaults_breaks (df : DataFrame) :
  "Breaks" ∉ columns df ->
  exists df',
    load_data (Some (Csv df)) = Ok df' /\
    columns df' = columns df ++ ["Breaks"] /\
    length (rows df') = length (rows df) /\
    forall i r', rows df' !! i = Some r' ->
      row_get (columns df') r' "Breaks" = Int 0 /\
      exists r, rows df !! i = Some r /\
        forall c, c ≠ "Breaks" ->
          row_get (columns df') r' c = row_get (columns df) r c.
Proof.
  intros Hb. exists (assign_column "Breaks" (Int 0) df).
  split; [simpl; by rewrite decide_True|].
  split; [done|]. split; [simpl; by rewrite length_map|].
  intros i r'. simpl. rewrite list_lookup_fmap.
  destruct (rows df !! i) as [r|] eqn:Hr; simpl; [|done].
  intros [= <-]. split.
  - unfold row_get. rewrite index_of_app_r by done. simpl.
    rewrite lookup_app_r by (rewrite length_reindex; lia).
    by rewrite length_reindex, Nat.add_0_r, Nat.sub_diag.
  - exists r. split; [done|]. intros c Hc.
    destruct (decide (c ∈ columns df)) as [Hin|Hout].
    + rewrite row_get_app by (done || apply length_reindex).
      by apply row_get_reindex.
    + rewrite (row_get_missing c (columns df)) by done.
      apply row_get_missing. rewrite elem_of_app, list_elem_of_singleton. tauto.
Qed.

Lemma load_data_defaults_breaks_witness :
  exists df',
    load_data (Some (Csv earlier_format)) = Ok df' /\
    columns df' = columns earlier_format ++ ["Breaks"] /\
    length (rows df') = length (rows earlier_format) /\
    forall i r', rows df' !! i = Some r' ->
      row_get (columns df') r' "Breaks" = Int 0 /\
      exists r, rows earlier_format !! i = Some r /\
        forall c, c ≠ "Breaks" ->
          row_get (columns df') r' c = row_get (columns earlier_format) r c.
Proof.
  apply (load_data_defaults_breaks earlier_format).
  by_evaluation.
Defined.


(** *** What [save_session] writes *)

Lemma upcast_with_text (l : list cell) : existsb is_text l = true -> upcast l = l.
Proof. intros H. unfold upcast. by rewrite H. Qed.

(** The cell appended to a column keeps its value in the common dtype. *)
Lemma last_upcast_snoc (l : list cell) (c : cell) :
  last (upcast (l ++ [c])) = Some c \/ last (upcast (l ++ [c])) = Some (as_float c).
Proof.
  destruct (upcast_cases (l ++ [c])) as [H|[_ H]]; rewrite H.
  - left. apply last_snoc.
  - right. by rewrite fmap_last, last_snoc.
Qed.

Lemma numeric_column_cells df c ns :
  numeric_column df c = Ok ns ->
  c ∈ columns df /\ numeric (column_cells df c) = Ok ns.
Proof.
  unfold numeric_column, column. case_decide as Hc; [|done]. by intros Hn.
Qed.

Lemma numeric_column_of_cells df c ns :
  c ∈ columns df -> numeric (column_cells df c) = Ok ns ->
  numeric_column df c = Ok ns.
Proof. intros Hc Hn. unfold numeric_column, column. by rewrite decide_True. Qed.

(** The column of the frame that [save_session] hands to [to_csv]: the
    loaded cells, then the cell of the session. *)
Lemma saved_column now subject topic d b df c :
  c ∈ canonical_columns ->
  column_cells (concat df (new_entry now subject topic d b)) c =
    upcast (column_cells df c ++
            [row_get canonical_columns
               [Str now; Str subject; Str topic; Float (round2 d); Int b] c]).
Proof.
  intros Hc.
  by rewrite column_cells_concat
    by (by apply (columns_concat_r df (new_entry now subject topic d b))).
Qed.

(** The frame handed to [to_csv] ends with the session. *)
Lemma saved_last_row now subject topic d b df :
  let saved := concat df (new_entry now subject topic d b) in
  length (rows saved) = S (length (rows df)) /\
  exists r, last (rows saved) = Some r /\
    row_get (columns saved) r "Date" = Str now /\
    row_get (columns saved) r "Subject" = Str subject /\
    row_get (columns saved) r "Topic" = Str topic /\
    row_get (columns saved) r "Duration_Minutes" = Float (round2 d) /\
    breaks_of (columns saved) r = Ok (Some (inject_Z b)).
Proof.
  intros saved.
  assert (Hlen : length (rows saved) = S (length (rows df))).
  { unfold saved. rewrite length_rows_concat. simpl. lia. }
  split; [done|].
  destruct (last_is_Some _ _ Hlen) as [r Hr]. exists r. split; [done|].
  assert (Hcell : forall c, c ∈ canonical_columns ->
            let v := row_get canonical_columns
                       [Str now; Str subject; Str topic; Float (round2 d); Int b] c in
            row_get (columns saved) r c = v \/ row_get (columns saved) r c = as_float v).
  { intros c Hc v. pose proof (last_column_cells saved c r Hr) as Hl.
    unfold saved in Hl. rewrite saved_column in Hl by done.
    fold v in Hl.
    destruct (last_upcast_snoc (column_cells df c) v) as [H|H];
      rewrite H in Hl; injection Hl as Hl; [left | right]; symmetry; exact Hl. }
  repeat split.
  - by destruct (Hcell "Date" ltac:(by_evaluation)).
  - by destruct (Hcell "Subject" ltac:(by_evaluation)).
  - by destruct (Hcell "Topic" ltac:(by_evaluation)).
  - by destruct (Hcell "Duration_Minutes" ltac:(by_evaluation)).
  - unfold breaks_of. by destruct (Hcell "Breaks" ltac:(by_evaluation)) as [-> | ->].
Qed.

(** The table read back from what was written ends with the session:
    its plain texts as written, its numbers in columns of numbers. *)
Lemma stored_last_row now subject topic d b df :
  let stored := reread (concat df (new_entry now subject topic d b)) in
  length (rows stored) = S (length (rows df)) /\
  exists r, last (rows stored) = Some r /\
    (plain_text now = true -> row_get (columns stored) r "Date" = Str now) /\
    (plain_text subject = true -> row_get (columns stored) r "Subject" = Str subject) /\
    (plain_text topic = true -> row_get (columns stored) r "Topic" = Str topic) /\
    (forall ds, numeric_column df "Duration_Minutes" = Ok ds ->
       row_get (columns stored) r "Duration_Minutes" = Float (round2 d)) /\
    (forall bs, numeric_column df "Breaks" = Ok bs ->
       breaks_of (columns stored) r = Ok (Some (inject_Z b))).
Proof.
  intros stored. set (saved := concat df (new_entry now subject topic d b)).
  assert (Hlen : length (rows stored) = S (length (rows df))).
  { unfold stored, reread. rewrite length_rows_by_column, length_rows_concat.
    simpl. lia. }
  split; [done|].
  destruct (last_is_Some _ _ Hlen) as [r Hr]. exists r. split; [done|].
  assert (Hcol : forall c, c ∈ canonical_columns ->
            let v := row_get canonical_columns
                       [Str now; Str subject; Str topic; Float (round2 d); Int b] c in
            last (infer_column (upcast (column_cells df c ++ [v]))) =
              Some (row_get (columns stored) r c)).
  { intros c Hc v. rewrite <- (last_column_cells stored c r Hr).
    unfold stored. rewrite column_cells_reread
      by (by apply (columns_concat_r df (new_entry now subject topic d b))).
    by rewrite saved_column. }
  assert (Htext : forall c s, c ∈ canonical_columns ->
            row_get canonical_columns
              [Str now; Str subject; Str topic; Float (round2 d); Int b] c = Str s ->
            plain_text s = true -> row_get (columns stored) r c = Str s).
  { intros c s Hc Hv Hs. pose proof (Hcol c Hc) as Hl. cbv zeta in Hl.
    rewrite Hv, upcast_with_text, infer_column_snoc_plain in Hl by
      (done || (rewrite List.existsb_app; apply orb_true_r)).
    by injection Hl. }
  assert (Hnum : forall c v ns, c ∈ canonical_columns ->
            row_get canonical_columns
              [Str now; Str subject; Str topic; Float (round2 d); Int b] c = v ->
            is_number v = true ->
            numeric_column df c = Ok ns ->
            row_get (columns stored) r c = v \/ row_get (columns stored) r c = as_float v).
  { intros c v ns Hc Hv Hnb [_ Hns]%numeric_column_cells.
    pose proof (Hcol c Hc) as Hl. cbv zeta in Hl. rewrite Hv in Hl.
    assert (Hv' : exists n, to_numeric v = Ok n) by (destruct v; by eauto).
    destruct Hv' as [n Hn].
    rewrite (infer_column_upcast_numeric _ (ns ++ [n])) in Hl.
    - destruct (last_upcast_snoc (column_cells df c) v) as [H|H];
        rewrite H in Hl; injection Hl as Hl; [left | right]; symmetry; exact Hl.
    - apply numeric_app; [done|]. simpl. by rewrite Hn. }
  split; [apply (Htext "Date"); by_evaluation || done|].
  split; [apply (Htext "Subject"); by_evaluation || done|].
  split; [apply (Htext "Topic"); by_evaluation || done|].
  split.
  - intros ds Hds.
    by destruct (Hnum "Duration_Minutes" (Float (round2 d)) ds
                   ltac:(by_evaluation) eq_refl eq_refl Hds).
  - intros bs Hbs. unfold breaks_of.
    by destruct (Hnum "Breaks" (Int b) bs ltac:(by_evaluation) eq_refl eq_refl Hbs)
      as [-> | ->].
Qed.

Lemma save_session_completes now subject topic d b fs df :
  load_data fs = Ok df ->
  save_session now NoFault subject topic d b fs =
    (Some (Csv (reread (concat df (new_entry now subject topic d b)))), Ok tt).
Proof. intros H. unfold save_session. by rewrite H. Qed.

(** What was written has the Breaks column, so that it loads as it is. *)
Lemma load_data_stored now subject topic d b df :
  load_data (Some (Csv (reread (concat df (new_entry now subject topic d b))))) =
    Ok (reread (concat df (new_entry now subject topic d b))).
Proof.
  apply load_data_with_breaks.
  apply (columns_concat_r df (new_entry now subject topic d b)), breaks_canonical.
Qed.

(** [round2] gives a hundredth within half a hundredth of its argument. *)
Lemma round2_near (x : Q) :
  exists z : Z,
    (round2 x == z # 100)%Q /\
    (- (1 # 2) <= x * (100 # 1) - inject_Z z <= 1 # 2)%Q.
Proof.
  exists (round_half_even (x * (100 # 1))). split.
  - unfold round2. apply Qred_correct.
  - apply (round_half_even_nearest (x * (100 # 1))).
Qed.




(** *** A save that fails *)


Lemma length_rows_reread d : length (rows (reread d)) = length (rows d).
Proof. apply length_rows_by_column. Qed.

(** What a rewrite does to rows stored before: an integer duration comes
    back as a float once a float joins its column, a subject that reads as
    a number comes back as its text once a text joins the column, and the
    text NA comes back as a missing value. *)
Example save_session_rewrites_earlier_rows :
  (save_session "2024-01-03 08:00" NoFault "Math" "NA" (61 # 2) 0
     (Some (Csv {| columns := canonical_columns;
                   rows := [[Str "2024-01-01 10:00"; Int 7; Str "Algebra";
                             Int 25; Int 1]] |}))).1 =
    Some (Csv {| columns := canonical_columns;
                 rows := [[Str "2024-01-01 10:00"; Str "7"; Str "Algebra";
                           Float (25 # 1); Int 1];
                          [Str "2024-01-03 08:00"; Str "Math"; NaN;
                           Float (61 # 2); Int 0]] |}).
Proof. by vm_compute. Qed.



(** ** The timer *)

(** *** What each kind of run does *)

Lemma script_configure i h m s fs :
  script (with_event i (Configure h m)) (s, fs) =
    ((mkState (h * 3600 + m * 60) false (h * 3600 + m * 60) 0, fs), Proceeds).
Proof. reflexivity. Qed.

Lemma script_start i s fs :
  timer_running s = false ->
  script (with_event i Start) (s, fs) =
    ((mkState (time_left s) true (initial_time s) (break_count s), fs), Rerun).
Proof. destruct s as [t r it b]. simpl. by intros ->. Qed.

Lemma script_pause i s fs :
  timer_running s = true ->
  script (with_event i Pause) (s, fs) =
    ((mkState (time_left s) false (initial_time s) (break_count s + 1), fs), Rerun).
Proof. destruct s as [t r it b]. simpl. by intros ->. Qed.

Lemma script_tick_countdown i s fs :
  timer_running s = true -> 0 < time_left s ->
  script (with_event i Tick) (s, fs) =
    ((mkState (time_left s - 1) true (initial_time s) (break_count s), fs), Rerun).
Proof.
  destruct s as [t r it b]. simpl. intros -> Ht.
  unfold script, timer_logic. simpl. by apply Z.ltb_lt in Ht as ->.
Qed.

Lemma script_tick_idle i s fs :
  timer_running s = false ->
  script (with_event i Tick) (s, fs) = ((s, fs), Proceeds).
Proof. destruct s as [t r it b]. simpl. by intros ->. Qed.

(** The expiry branch: what it hands to [save_session] and what it leaves. *)
Lemma script_tick_expiry i s fs :
  timer_running s = true -> time_left s <= 0 ->
  script (with_event i Tick) (s, fs) =
    match save_session (now i) (fault i) (subject i) (topic i)
            (inject_Z (initial_time s) / 60) (break_count s) fs with
    | (fs', Raise e) =>
        ((mkState (time_left s) false (initial_time s) (break_count s), fs'), Raised e)
    | (fs', Ok _) => ((fresh_state, fs'), Rerun)
    end.
Proof.
  destruct s as [t r it b]. simpl. intros -> Ht.
  unfold script, timer_logic. simpl. by apply Z.ltb_ge in Ht as ->.
Qed.

(** With a readable file and a working disk the expiry run writes the
    loaded frame with the session's entry appended, and zeroes the state. *)
Lemma expiry_run i s fs df :
  timer_running s = true -> time_left s <= 0 ->
  fault i = NoFault -> load_data fs = Ok df ->
  script (with_event i Tick) (s, fs) =
    ((fresh_state,
      Some (Csv (reread (concat df (new_entry (now i) (subject i) (topic i)
                                      (inject_Z (initial_time s) / 60) (break_count s)))))),
     Rerun).
Proof.
  intros Hr Ht Hf Hload. rewrite script_tick_expiry by done.
  unfold save_session. by rewrite Hload, Hf.
Qed.

(** *** Runs in sequence *)

Lemma run_events_cons i ev evs w :
  run_events i (ev :: evs) w = run_events i evs (step i w ev).
Proof. reflexivity. Qed.

Lemma trace_cons i ev evs w :
  trace i (ev :: evs) w = step i w ev :: trace i evs (step i w ev).
Proof. reflexivity. Qed.

Lemma step_pause i t it b fs :
  step i (mkState t true it b, fs) Pause = (mkState t false it (b + 1), fs).
Proof. reflexivity. Qed.

Lemma step_start i t it b fs :
  step i (mkState t false it b, fs) Start = (mkState t true it b, fs).
Proof. reflexivity. Qed.

Lemma step_tick_countdown i t it b fs :
  0 < t -> step i (mkState t true it b, fs) Tick = (mkState (t - 1) true it b, fs).
Proof. intros Ht. unfold step. by rewrite script_tick_countdown. Qed.

Lemma expired_running t it b : expired (mkState t true it b) = negb (0 <? t).
Proof. reflexivity. Qed.

Lemma expired_paused t it b : expired (mkState t false it b) = false.
Proof. reflexivity. Qed.

Lemma run_events_app i evs1 evs2 w :
  run_events i (evs1 ++ evs2) w = run_events i evs2 (run_events i evs1 w).
Proof. apply foldl_app. Qed.

Lemma trace_app i evs1 evs2 w :
  trace i (evs1 ++ evs2) w = trace i evs1 w ++ trace i evs2 (run_events i evs1 w).
Proof.
  revert w. induction evs1 as [|ev evs1 IH]; intros w; simpl; [done|].
  by rewrite IH.
Qed.

Lemma pauses_app evs1 evs2 : pauses (evs1 ++ evs2) = pauses evs1 + pauses evs2.
Proof. unfold pauses. rewrite filter_app, length_app. lia. Qed.

Lemma pauses_ticks n : pauses (repeat Tick n) = 0.
Proof. induction n as [|n IH]; [done|]. exact IH. Qed.

Lemma pauses_breaks bs : pauses (breaks bs) = Z.of_nat (length bs).
Proof.
  induction bs as [|n bs IH]; [done|].
  change (breaks (n :: bs)) with ([Pause] ++ repeat Tick n ++ [Start] ++ breaks bs).
  rewrite !pauses_app, pauses_ticks, IH. unfold pauses. simpl. lia.
Qed.

Lemma pauses_schedule ks : pauses (schedule ks) = Z.of_nat (sum_list (length <$> ks)).
Proof.
  induction ks as [|bs ks IH]; [done|].
  change (schedule (bs :: ks)) with (breaks bs ++ [Tick] ++ schedule ks).
  rewrite !pauses_app, pauses_breaks, IH. change (pauses [Tick]) with 0.
  rewrite fmap_cons. cbn [sum_list sum_list_with]. unfold id. lia.
Qed.

(** Idle reruns change nothing. *)
Lemma run_ticks_idle i n s fs :
  timer_running s = false -> run_events i (repeat Tick n) (s, fs) = (s, fs).
Proof.
  intros Hr. induction n as [|n IH]; [done|].
  change (repeat Tick (S n)) with (Tick :: repeat Tick n).
  rewrite run_events_cons. unfold step. by rewrite script_tick_idle.
Qed.

Lemma trace_ticks_idle i n s fs :
  timer_running s = false ->
  filter (fun w : world => expired w.1) (trace i (repeat Tick n) (s, fs)) = [].
Proof.
  destruct s as [t r it b]. simpl. intros ->.
  induction n as [|n IH]; [done|].
  change (repeat Tick (S n)) with (Tick :: repeat Tick n).
  rewrite trace_cons. unfold step. rewrite script_tick_idle by done.
  cbn [fst]. rewrite filter_cons, IH. cbn [fst]. by rewrite expired_paused.
Qed.

(** Breaks while time is left: one more break each, nothing else moves,
    and the timer is never expired on the way. *)
Lemma run_breaks i bs t it b fs :
  0 < t ->
  run_events i (breaks bs) (mkState t true it b, fs) =
    (mkState t true it (b + Z.of_nat (length bs)), fs) /\
  filter (fun w : world => expired w.1) (trace i (breaks bs) (mkState t true it b, fs)) = [].
Proof.
  intros Ht. revert b. induction bs as [|n bs IH]; intros b.
  - split; [|done]. unfold run_events. simpl. do 2 f_equal. lia.
  - destruct (IH (b + 1)) as [IH1 IH2].
    change (breaks (n :: bs)) with (Pause :: repeat Tick n ++ Start :: breaks bs).
    split.
    + rewrite run_events_cons, step_pause, run_events_app, run_ticks_idle by done.
      rewrite run_events_cons, step_start, IH1.
      do 2 f_equal. simpl length. lia.
    + rewrite trace_cons, step_pause, trace_app, run_ticks_idle by done.
      rewrite trace_cons, step_start.
      rewrite filter_cons, filter_app, filter_cons, IH2, trace_ticks_idle by done.
      cbn [fst]. rewrite expired_paused, expired_running.
      apply Z.ltb_lt in Ht as ->. done.
Qed.

(** The countdown: with [length ks] seconds left, the schedule ends with
    the timer running at zero, which is the only expired world on the way. *)
Lemma run_schedule i ks it b fs :
  run_events i (schedule ks) (mkState (Z.of_nat (length ks)) true it b, fs) =
    (mkState 0 true it (b + Z.of_nat (sum_list (length <$> ks))), fs) /\
  filter (fun w : world => expired w.1)
    (trace i (schedule ks) (mkState (Z.of_nat (length ks)) true it b, fs)) =
    match ks with
    | [] => []
    | _ => [(mkState 0 true it (b + Z.of_nat (sum_list (length <$> ks))), fs)]
    end.
Proof.
  revert b. induction ks as [|bs ks IH]; intros b.
  - split; [|done]. unfold run_events. simpl. do 2 f_equal. lia.
  - set (t := Z.of_nat (length (bs :: ks))).
    assert (Ht : 0 < t) by (unfold t; simpl; lia).
    assert (Ht' : t - 1 = Z.of_nat (length ks)) by (unfold t; simpl length; lia).
    destruct (run_breaks i bs t it b fs Ht) as [Hb1 Hb2].
    destruct (IH (b + Z.of_nat (length bs))) as [IH1 IH2].
    assert (Hsum : b + Z.of_nat (length bs) + Z.of_nat (sum_list (length <$> ks)) =
                   b + Z.of_nat (sum_list (length <$> bs :: ks)))
      by (rewrite fmap_cons; cbn [sum_list sum_list_with]; unfold id; lia).
    change (schedule (bs :: ks)) with (breaks bs ++ Tick :: schedule ks).
    split.
    + rewrite run_events_app, Hb1, run_events_cons, step_tick_countdown by done.
      by rewrite Ht', IH1, Hsum.
    + rewrite trace_app, filter_app, Hb1, Hb2, trace_cons.
      rewrite step_tick_countdown by done. rewrite Ht', filter_cons, IH2.
      cbn [fst app]. rewrite expired_running, <- Hsum.
      destruct ks as [|bs' ks].
      * simpl. do 3 f_equal. lia.
      * by replace (0 <? Z.of_nat (length (bs' :: ks))) with true
          by (symmetry; apply Z.ltb_lt; simpl length; lia).
Qed.

Lemma step_configure i h m w :
  step i w (Configure h m) =
    (mkState (h * 3600 + m * 60) false (h * 3600 + m * 60) 0, w.2).
Proof. by destruct w. Qed.

Lemma pauses_configure_start h m evs :
  pauses (Configure h m :: Start :: evs) = pauses evs.
Proof. reflexivity. Qed.

(** After the expiry run the timer is stopped, saved or not. *)
Lemma step_expiry_stops i s fs :
  timer_running s = true -> time_left s <= 0 ->
  timer_running (step i (s, fs) Tick).1 = false.
Proof.
  intros Hr Ht. unfold step. rewrite script_tick_expiry by done.
  by destruct (save_session _ _ _ _ _ _ _) as [fs' [[]|e]].
Qed.

(** *** Expiry after the configured number of ticks *)

(** C3: for every duration of [total > 0] seconds, configure, start and
    exactly [total] ticks of the countdown, with any number of
    pause/resume pairs before each tick (and any number of reruns while
    paused), end with the timer running at zero, which is the one and only
    expired world of the whole run; its break count is the number of
    pauses issued.  The rerun that the last tick requests takes the expiry
    branch with this break count and stops the timer, so that later reruns
    change nothing: the timer expires once. *)
Theorem timer_expires_once (i : run_inputs) (h m : Z) (ks : list (list nat))
    (w0 : world) :
  0 < h * 3600 + m * 60 ->
  Z.of_nat (length ks) = h * 3600 + m * 60 ->
  let total := h * 3600 + m * 60 in
  let evs := Configure h m :: Start :: schedule ks in
  let final := mkState 0 true total (pauses evs) in
  run_events i evs w0 = (final, w0.2) /\
  filter (fun w : world => expired w.1) (trace i evs w0) = [(final, w0.2)] /\
  step i (final, w0.2) Tick =
    match save_session (now i) (fault i) (subject i) (topic i)
            (inject_Z total / 60) (pauses evs) w0.2 with
    | (fs', Ok _) => (fresh_state, fs')
    | (fs', Raise _) => (mkState 0 false total (pauses evs), fs')
    end /\
  forall n, run_events i (evs ++ Tick :: repeat Tick n) w0 =
            run_events i (evs ++ [Tick]) w0.
Proof.
  intros Hpos Hlen total evs final.
  assert (Hp : pauses evs = 0 + Z.of_nat (sum_list (length <$> ks))).
  { unfold evs. rewrite pauses_configure_start, pauses_schedule. lia. }
  destruct (run_schedule i ks total 0 w0.2) as [H1 H2].
  rewrite Hlen in H1, H2. fold total in H1, H2.
  assert (Hrun : run_events i evs w0 = (final, w0.2)).
  { unfold evs. rewrite !run_events_cons, step_configure, step_start.
    fold total. rewrite H1. unfold final. by rewrite Hp. }
  split; [done|]. split; [|split].
  - unfold evs. rewrite !trace_cons, step_configure, step_start. fold total.
    rewrite !filter_cons, H2. cbn [fst].
    rewrite expired_paused, expired_running.
    apply Z.ltb_lt in Hpos as Hpos'. fold total in Hpos'. rewrite Hpos'.
    unfold final. rewrite Hp.
    destruct ks; [simpl in Hlen; lia | done].
  - unfold step. rewrite script_tick_expiry by (simpl; done || lia).
    by destruct (save_session _ _ _ _ _ _ _) as [fs' [[]|e]].
  - intros n. change (Tick :: repeat Tick n) with ([Tick] ++ repeat Tick n).
    rewrite app_assoc, (run_events_app _ (evs ++ [Tick])).
    rewrite (run_events_app _ evs [Tick]), Hrun.
    change (run_events i [Tick] (final, w0.2)) with (step i (final, w0.2) Tick).
    pose proof (step_expiry_stops i final w0.2 eq_refl ltac:(simpl; lia)) as Hstop.
    destruct (step i (final, w0.2) Tick) as [s' fs'].
    by apply run_ticks_idle.
Qed.

Lemma timer_expires_once_witness :
  run_events default_inputs (Configure 0 1 :: Start :: schedule one_break_schedule)
    (fresh_state, None) = (mkState 0 true 60 1, None) /\
  filter (fun w : world => expired w.1)
    (trace default_inputs (Configure 0 1 :: Start :: schedule one_break_schedule)
       (fresh_state, None)) = [(mkState 0 true 60 1, None)].
Proof.
  pose proof (timer_expires_once default_inputs 0 1 one_break_schedule
                (fresh_state, None) ltac:(lia) ltac:(reflexivity)) as H.
  cbv zeta in H. destruct H as (H1 & H2 & _).
  split; [exact H1 | exact H2].
Defined.

(** The rows loaded before keep their place and the value of their
    cells in the frame handed to [to_csv]: a cell is as loaded, or the
    float of the loaded integer. *)
Lemma concat_keeps_values df1 df2 j r0 c :
  rows df1 !! j = Some r0 -> c ∈ columns df1 ->
  exists r1, rows (concat df1 df2) !! j = Some r1 /\
    (row_get (columns (concat df1 df2)) r1 c = row_get (columns df1) r0 c \/
     row_get (columns (concat df1 df2)) r1 c = as_float (row_get (columns df1) r0 c)).
Proof.
  intros Hr0 Hc.
  assert (Hj : (j < length (rows (concat df1 df2)))%nat).
  { rewrite length_rows_concat. apply lookup_lt_Some in Hr0. lia. }
  destruct (lookup_lt_is_Some_2 _ _ Hj) as [r1 Hr1]. exists r1. split; [done|].
  assert (Hcell : column_cells (concat df1 df2) c !! j =
                    Some (row_get (columns (concat df1 df2)) r1 c)).
  { unfold column_cells. by rewrite list_lookup_fmap, Hr1. }
  assert (Hold : (column_cells df1 c ++ column_cells df2 c) !! j =
                   Some (row_get (columns df1) r0 c)).
  { rewrite lookup_app_l by (rewrite length_column_cells; by eapply lookup_lt_Some).
    unfold column_cells. by rewrite list_lookup_fmap, Hr0. }
  rewrite column_cells_concat in Hcell by (by apply columns_concat_l).
  destruct (upcast_cases (column_cells df1 c ++ column_cells df2 c)) as [H|[_ H]];
    rewrite H in Hcell.
  - left. rewrite Hold in Hcell. by injection Hcell.
  - right. rewrite list_lookup_fmap, Hold in Hcell. by injection Hcell.
Qed.

(** C4: a run that finds the timer running with nothing left, the file
    readable and the disk working, builds exactly one session, from the
    subject and topic of the widgets, [initial_time / 60] rounded to the
    nearest hundredth and the current break count, appends it to the
    loaded table (one row more, the loaded rows kept with the values of
    their cells), writes the table, and leaves the time left, the initial
    time and the break count at zero, the timer stopped.  The file then
    loads with one row more; where the Duration_Minutes and Breaks columns
    held numbers before and the session is within [session_bounds], its
    last row reads the rounded duration and the break count. *)
Theorem expiry_saves_and_resets (i : run_inputs) (s : session_state)
    (fs : filesystem) (df : DataFrame) :
  timer_running s = true -> time_left s <= 0 ->
  fault i = NoFault -> load_data fs = Ok df ->
  let d := (inject_Z (initial_time s) / 60)%Q in
  let saved := concat df (new_entry (now i) (subject i) (topic i) d (break_count s)) in
  script (with_event i Tick) (s, fs) =
    ((fresh_state, Some (Csv (reread saved))), Rerun) /\
  length (rows saved) = S (length (rows df)) /\
  (forall j r0 c, rows df !! j = Some r0 -> c ∈ columns df ->
     exists r1, rows saved !! j = Some r1 /\
       (row_get (columns saved) r1 c = row_get (columns df) r0 c \/
        row_get (columns saved) r1 c = as_float (row_get (columns df) r0 c))) /\
  (exists r (z : Z),
     last (rows saved) = Some r /\
     row_get (columns saved) r "Subject" = Str (subject i) /\
     row_get (columns saved) r "Topic" = Str (topic i) /\
     row_get (columns saved) r "Duration_Minutes" = Float (round2 d) /\
     (round2 d == z # 100)%Q /\
     (- (1 # 2) <= d * (100 # 1) - inject_Z z <= 1 # 2)%Q /\
     breaks_of (columns saved) r = Ok (Some (inject_Z (break_count s)))) /\
  (exists df' r',
     load_data (Some (Csv (reread saved))) = Ok df' /\
     length (rows df') = S (length (rows df)) /\
     last (rows df') = Some r' /\
     (session_bounds d (break_count s) = true ->
      (forall ds, numeric_column df "Duration_Minutes" = Ok ds ->
         row_get (columns df') r' "Duration_Minutes" = Float (round2 d)) /\
      (forall bs, numeric_column df "Breaks" = Ok bs ->
         breaks_of (columns df') r' = Ok (Some (inject_Z (break_count s)))))).
Proof.
  intros Hr Ht Hf Hload d saved.
  destruct (saved_last_row (now i) (subject i) (topic i) d (break_count s) df)
    as (Hlen & r & Hlast & _ & Hsub & Htop & Hdur & Hbr).
  destruct (stored_last_row (now i) (subject i) (topic i) d (break_count s) df)
    as (Hlen' & r' & Hlast' & _ & _ & _ & Hdur' & Hbr').
  destruct (round2_near d) as (z & Hz1 & Hz2).
  split; [by apply expiry_run|]. split; [done|].
  split; [intros j r0 c; apply concat_keeps_values|].
  split; [by exists r, z|].
  exists (reread saved), r'. split; [apply load_data_stored|]. done.
Qed.

(** The scenario of C4: configure(0,25), start, 1500 ticks; the rerun
    after the last tick persists 25.0 minutes and no break.  A session of
    100 seconds with two breaks, appended to a file with one session, is
    stored with 1.67 minutes. *)
Lemma expiry_saves_and_resets_witness :
  run_events default_inputs (Configure 0 25 :: Start :: repeat Tick 1500)
    (fresh_state, None) = (mkState 0 true 1500 0, None) /\
  (exists df' r',
     (script (with_event default_inputs Tick) (mkState 0 true 1500 0, None)).1.1 =
       fresh_state /\
     load_data (script (with_event default_inputs Tick)
                  (mkState 0 true 1500 0, None)).1.2 = Ok df' /\
     length (rows df') = 1%nat /\
     last (rows df') = Some r' /\
     row_get (columns df') r' "Duration_Minutes" = Float (25 # 1) /\
     breaks_of (columns df') r' = Ok (Some (0 # 1))) /\
  (exists df' r',
     load_data (script (with_event default_inputs Tick)
                  (mkState 0 true 100 2, Some (Csv one_session))).1.2 = Ok df' /\
     length (rows df') = 2%nat /\
     last (rows df') = Some r' /\
     row_get (columns df') r' "Duration_Minutes" = Float (167 # 100) /\
     breaks_of (columns df') r' = Ok (Some (2 # 1))).
Proof.
  split; [by vm_compute|]. split.
  - destruct (expiry_saves_and_resets default_inputs (mkState 0 true 1500 0) None
                {| columns := canonical_columns; rows := [] |}
                eq_refl ltac:(simpl; lia) eq_refl eq_refl)
      as (Hrun & _ & _ & _ & df' & r' & Hload & Hlen & Hlast & Hnum).
    destruct (Hnum eq_refl) as [Hd Hb].
    exists df', r'.
    split; [exact (f_equal (fun x => x.1.1) Hrun)|].
    split; [exact (eq_trans (f_equal (fun x => load_data x.1.2) Hrun) Hload)|].
    split; [done|]. split; [done|].
    split; [exact (Hd [] eq_refl) | exact (Hb [] eq_refl)].
  - destruct (expiry_saves_and_resets default_inputs (mkState 0 true 100 2)
                (Some (Csv one_session)) one_session
                eq_refl ltac:(simpl; lia) eq_refl eq_refl)
      as (Hrun & _ & _ & _ & df' & r' & Hload & Hlen & Hlast & Hnum).
    destruct (Hnum eq_refl) as [Hd Hb].
    exists df', r'.
    split; [exact (eq_trans (f_equal (fun x => load_data x.1.2) Hrun) Hload)|].
    split; [done|]. split; [done|].
    split; [exact (Hd [Some (25 # 1)] eq_refl) | exact (Hb [Some (1 # 1)] eq_refl)].
Defined.

(** *** Start with nothing left *)

(** C1, as amended: "Start / Resume" is not guarded by the time left.
    From every stopped timer, whatever time is left and whatever the
    file holds, it raises nothing, persists nothing and only sets the
    timer running.  With nothing left, the rerun it requests takes the
    expiry branch: it calls [save_session] with [initial_time / 60]
    minutes and the current break count; with a readable file and a
    working disk the state is zeroed and the file then loads with one row
    more, whose last row reads the rounded duration and the break count
    where these columns held numbers before and the session is within
    [session_bounds]. *)
Theorem start_is_unguarded (i : run_inputs) (s : session_state) (fs : filesystem) :
  timer_running s = false ->
  let started := mkState (time_left s) true (initial_time s) (break_count s) in
  script (with_event i Start) (s, fs) = ((started, fs), Rerun) /\
  (time_left s <= 0 ->
     script (with_event i Tick) (started, fs) =
       match save_session (now i) (fault i) (subject i) (topic i)
               (inject_Z (initial_time s) / 60) (break_count s) fs with
       | (fs', Raise e) =>
           ((mkState (time_left s) false (initial_time s) (break_count s), fs'),
            Raised e)
       | (fs', Ok _) => ((fresh_state, fs'), Rerun)
       end /\
     forall df, fault i = NoFault -> load_data fs = Ok df ->
       exists df' r,
         script (with_event i Tick) (started, fs) =
           ((fresh_state, Some (Csv df')), Rerun) /\
         load_data (Some (Csv df')) = Ok df' /\
         length (rows df') = S (length (rows df)) /\
         last (rows df') = Some r /\
         (session_bounds (inject_Z (initial_time s) / 60) (break_count s) = true ->
          (forall ds, numeric_column df "Duration_Minutes" = Ok ds ->
             row_get (columns df') r "Duration_Minutes" =
               Float (round2 (inject_Z (initial_time s) / 60))) /\
          (forall bs, numeric_column df "Breaks" = Ok bs ->
             breaks_of (columns df') r = Ok (Some (inject_Z (break_count s)))))).
Proof.
  intros Hr started.
  split; [by apply script_start|].
  intros Ht. split; [by apply (script_tick_expiry i started fs)|].
  intros df Hf Hload.
  destruct (stored_last_row (now i) (subject i) (topic i)
              (inject_Z (initial_time s) / 60) (break_count s) df)
    as (Hlen & r & Hlast & _ & _ & _ & Hdur & Hbr).
  eexists _, r. split; [by apply (expiry_run i started fs df)|].
  split; [apply load_data_stored|]. done.
Qed.

Lemma start_is_unguarded_witness :
  script (with_event default_inputs Start) (mkState 90 false 1500 1, Some (Csv one_session)) =
    ((mkState 90 true 1500 1, Some (Csv one_session)), Rerun) /\
  script (with_event default_inputs Start) (mkState 0 false 0 0, Some (Csv one_session)) =
    ((mkState 0 true 0 0, Some (Csv one_session)), Rerun) /\
  exists df' r,
    script (with_event default_inputs Tick) (mkState 0 true 0 0, Some (Csv one_session)) =
      ((fresh_state, Some (Csv df')), Rerun) /\
    length (rows df') = 2%nat /\
    last (rows df') = Some r /\
    row_get (columns df') r "Duration_Minutes" = Float (0 # 1) /\
    breaks_of (columns df') r = Ok (Some (0 # 1)).
Proof.
  split; [|split].
  - exact (proj1 (start_is_unguarded default_inputs (mkState 90 false 1500 1)
                    (Some (Csv one_session)) eq_refl)).
  - exact (proj1 (start_is_unguarded default_inputs (mkState 0 false 0 0)
                    (Some (Csv one_session)) eq_refl)).
  - destruct (proj2 (proj2 (start_is_unguarded default_inputs (mkState 0 false 0 0)
                              (Some (Csv one_session)) eq_refl) ltac:(simpl; lia))
                one_session eq_refl eq_refl)
      as (df' & r & Hrun & _ & Hlen & Hlast & Hnum).
    destruct (Hnum eq_refl) as [Hd Hb].
    exists df', r. split; [exact Hrun|]. split; [done|]. split; [done|].
    split; [exact (Hd [Some (25 # 1)] eq_refl) | exact (Hb [Some (1 # 1)] eq_refl)].
Defined.

(** C1, as stated, fails: after configure(0,0) nothing is left, yet start
    changes the state (the timer runs) and the rerun it requests persists
    a session of zero minutes. *)
Lemma start_at_zero_persists_session :
  let w := step default_inputs (fresh_state, None) (Configure 0 0) in
  time_left w.1 = 0 /\
  step default_inputs w Start ≠ w /\
  (run_events default_inputs [Start; Tick] w).2 =
    Some (Csv {| columns := canonical_columns;
                 rows := [[Str "2024-01-03 08:00"; Str "General"; Str "Study Session";
                           Float (0 # 1); Int 0]] |}).
Proof. by vm_compute. Qed.

(** *** The countdown stays within its bounds *)

Lemma script_keeps_bounds i s fs :
  valid_duration (hours i) (minutes i) ->
  0 <= time_left s <= initial_time s ->
  0 <= time_left (script i (s, fs)).1.1 <= initial_time (script i (s, fs)).1.1.
Proof.
  intros [Hh Hm] Hs. unfold script, timer_logic, set_reset.
  destruct s as [t r it b]. simpl in Hs.
  repeat first
    [ progress simpl
    | lia
    | case_decide
    | match goal with
      | |- context [if ?b then _ else _] => destruct b eqn:?
      | |- context [match save_session ?a ?b ?c ?d ?e ?f ?g with _ => _ end] =>
          destruct (save_session a b c d e f g) as [? [[]|?]]
      end ].
Qed.

Lemma progress_bounds s :
  0 <= time_left s <= initial_time s -> (0 <= progress s <= 1)%Q.
Proof.
  intros Hs. unfold progress.
  destruct (0 <? initial_time s) eqn:Hpos; [|done].
  apply Z.ltb_lt in Hpos. split; [apply Q.min_glb; [|done] | apply Q.le_min_r].
  destruct (initial_time s) as [|p|p]; try lia.
  unfold Qle, Qminus, Qplus, Qopp, Qdiv, Qmult, Qinv, inject_Z. simpl.
  nia.
Qed.

(** C10: in every world that runs of the script reach from a fresh
    session, [0 <= time_left <= initial_time], and the value handed to the
    progress bar lies in [0, 1]. *)
Theorem reachable_progress_in_unit_interval (w : world) :
  reachable w ->
  0 <= time_left w.1 <= initial_time w.1 /\
  (0 <= progress w.1 <= 1)%Q /\
  forall i, valid_duration (hours i) (minutes i) ->
    (0 <= progress (set_reset i w.1) <= 1)%Q.
Proof.
  intros Hw.
  assert (Hb : 0 <= time_left w.1 <= initial_time w.1).
  { induction Hw as [fs|i [s fs] Hv Hw IH]; [simpl; lia|].
    by apply script_keeps_bounds. }
  split; [done|]. split; [by apply progress_bounds|].
  intros i [Hh Hm]. apply progress_bounds. unfold set_reset.
  case_decide; simpl; lia.
Qed.

Lemma reachable_progress_in_unit_interval_witness :
  0 <= 1499 <= 1500 /\ (0 <= progress (mkState 1499 true 1500 0) <= 1)%Q.
Proof.
  refine (let H := reachable_progress_in_unit_interval (mkState 1499 true 1500 0, None) _ in
          conj (proj1 H) (proj1 (proj2 H))).
  exact (reach_run (with_event default_inputs Tick) _
           ltac:(unfold valid_duration; simpl; lia)
           (reach_run (with_event default_inputs Start) _
              ltac:(unfold valid_duration; simpl; lia)
              (reach_run (with_event default_inputs (Configure 0 25)) _
                 ltac:(unfold valid_duration; simpl; lia)
                 (reach_fresh None)))).
Defined.

(** ** The dashboard *)

(** *** The first best entry of a column *)

Section first_best.
Variable better : Q -> Q -> bool.
Variables le lt : Q -> Q -> Prop.
Hypothesis better_true : forall q b, better q b = true -> lt b q.
Hypothesis better_false : forall q b, better q b = false -> le q b.
Hypothesis le_refl : forall a, le a a.
Hypothesis lt_le : forall a b, lt a b -> le a b.
Hypothesis le_trans : forall a b c, le a b -> le b c -> le a c.
Hypothesis le_lt_trans : forall a b c, le a b -> lt b c -> lt a c.

Lemma scanned_snoc p best x :
  scanned le lt p best ->
  scanned le lt (p ++ [x])
    match x, best with
    | None, _ => best
    | Some q, None => Some (length p, q)
    | Some q, Some (j, b) => if better q b then Some (length p, q) else best
    end.
Proof.
  intros Hp. destruct x as [qn|].
  - destruct best as [[j q]|].
    + destruct Hp as [Hj Hall].
      pose proof (lookup_lt_Some _ _ _ Hj) as Hjlt.
      destruct (better qn q) eqn:Hb; simpl.
      * split; [by rewrite lookup_app_r, Nat.sub_diag by lia|].
        intros k q' Hk. apply lookup_app_Some in Hk as [Hk|[Hge Hk]].
        -- destruct (Hall k q' Hk) as [Hle _].
           split; [|intros _]; eauto.
        -- apply list_lookup_singleton_Some in Hk as [Hk0 [= <-]].
           split; [done | lia].
      * split; [by rewrite lookup_app_l by lia|].
        intros k q' Hk. apply lookup_app_Some in Hk as [Hk|[Hge Hk]].
        -- by apply Hall.
        -- apply list_lookup_singleton_Some in Hk as [Hk0 [= <-]].
           split; [by apply better_false | lia].
    + simpl in *. split; [by rewrite lookup_app_r, Nat.sub_diag by lia|].
      intros k q' Hk. apply lookup_app_Some in Hk as [Hk|[Hge Hk]].
      * by destruct (Hp k q').
      * apply list_lookup_singleton_Some in Hk as [Hk0 [= <-]].
        split; [done | lia].
  - destruct best as [[j q]|]; simpl in *.
    + destruct Hp as [Hj Hall].
      pose proof (lookup_lt_Some _ _ _ Hj) as Hjlt.
      split; [by rewrite lookup_app_l by lia|].
      intros k q' Hk. apply lookup_app_Some in Hk as [Hk|[Hge Hk]].
      * by apply Hall.
      * by apply list_lookup_singleton_Some in Hk as [_ ?].
    + intros k q Hk. apply lookup_app_Some in Hk as [Hk|[Hge Hk]].
      * by destruct (Hp k q).
      * by apply list_lookup_singleton_Some in Hk as [_ ?].
Qed.

Lemma first_best_scanned l p best :
  scanned le lt p best ->
  scanned le lt (p ++ l) (first_best better l (length p) best).
Proof.
  revert p best. induction l as [|x l IH]; intros p best Hp.
  - by rewrite app_nil_r.
  - replace (p ++ x :: l) with ((p ++ [x]) ++ l) by (by rewrite <- app_assoc).
    pose proof (IH _ _ (scanned_snoc p best x Hp)) as H.
    rewrite length_app in H. cbn [length] in H. rewrite Nat.add_1_r in H.
    destruct x as [qn|]; simpl;
      [destruct best as [[j q]|]; [destruct (better qn q)|]|]; exact H.
Qed.

(** The index that the scan returns holds a number that no entry beats
    and no earlier entry equals. *)
Lemma idx_best_first l i :
  idx_best better l = Ok i ->
  exists q, l !! i = Some (Some q) /\
    forall k q', l !! k = Some (Some q') -> le q' q /\ (k < i -> lt q' q)%nat.
Proof.
  unfold idx_best. pose proof (first_best_scanned l [] None) as H.
  simpl in H. destruct (first_best better l 0 None) as [[j q]|]; [|done].
  intros [= <-]. exists q. apply H. by intros k q'.
Qed.

(** The row picked through the scan of Duration_Minutes: the first row,
    in load order, that holds the best duration. *)
Lemma loc_idx_best df r :
  (vs ← column df "Duration_Minutes"; ns ← numeric vs;
   i ← idx_best better ns; loc df i) = Ok r ->
  exists i q,
    rows df !! i = Some r /\
    duration_of (columns df) r = Ok (Some q) /\
    forall j r' q',
      rows df !! j = Some r' ->
      duration_of (columns df) r' = Ok (Some q') ->
      le q' q /\ (j < i -> lt q' q)%nat.
Proof.
  unfold column. case_decide as Hcol; [|done]. simpl.
  destruct (numeric _) as [ns|e] eqn:Hns; [|done]. simpl.
  destruct (idx_best better ns) as [i|e] eqn:Hi; [|done]. simpl.
  unfold loc. destruct (rows df !! i) as [r0|] eqn:Hr0; [|done].
  intros [= ->]. apply numeric_Forall2 in Hns.
  destruct (idx_best_first ns i Hi) as (q & Hq & Hbest).
  exists i, q. split; [done|]. split.
  - destruct (Forall2_lookup_r _ _ _ _ _ Hns Hq) as (c & Hc & Hnum).
    rewrite list_lookup_fmap, Hr0 in Hc. by injection Hc as <-.
  - intros j r' q' Hj Hd.
    assert (Hc : (map (fun r => row_get (columns df) r "Duration_Minutes") (rows df)) !! j
                 = Some (row_get (columns df) r' "Duration_Minutes"))
      by (by rewrite list_lookup_fmap, Hj).
    destruct (Forall2_lookup_l _ _ _ _ _ Hns Hc) as (n & Hn & Hnum).
    unfold duration_of in Hd. rewrite Hd in Hnum. injection Hnum as <-.
    by apply Hbest.
Qed.
End first_best.

Lemma Qgtb_true q b : Qgtb q b = true -> (b < q)%Q.
Proof.
  unfold Qgtb. destruct (q ?= b)%Q eqn:E; try done. intros _. by apply Qgt_alt.
Qed.

Lemma Qgtb_false q b : Qgtb q b = false -> (q <= b)%Q.
Proof.
  unfold Qgtb. intros H. apply Qle_alt. by destruct (q ?= b)%Q.
Qed.

Lemma Qltb_true q b : Qltb q b = true -> (q < b)%Q.
Proof.
  unfold Qltb. destruct (q ?= b)%Q eqn:E; try done.
Qed.

Lemma Qltb_false q b : Qltb q b = false -> (b <= q)%Q.
Proof.
  unfold Qltb. intros H. apply Qle_alt. rewrite <- Qcompare_antisym.
  by destruct (q ?= b)%Q.
Qed.

(** A frame of one row with a number under Duration_Minutes. *)
Lemma single_row_pick better cols r q :
  "Duration_Minutes" ∈ cols ->
  duration_of cols r = Ok (Some q) ->
  (vs ← column {| columns := cols; rows := [r] |} "Duration_Minutes";
   ns ← numeric vs; i ← idx_best better ns;
   loc {| columns := cols; rows := [r] |} i) = Ok r.
Proof.
  intros Hcol Hd. unfold column. cbn [columns rows].
  rewrite decide_True by done. unfold duration_of in Hd.
  simpl. by rewrite Hd.
Qed.

(** C8: on a table of exactly one row (its duration a number) the
    records are computed without raising and both the longest and the
    shortest session are that row; on any table, the longest (shortest)
    session is a row whose duration no row exceeds (undercuts) and that no
    earlier row equals: among ties the first in load order is selected. *)
Theorem records_pick_first_extreme :
  (forall cols r q,
     "Duration_Minutes" ∈ cols ->
     duration_of cols r = Ok (Some q) ->
     records {| columns := cols; rows := [r] |} = Some (Ok r, Ok r)) /\
  (forall df r,
     longest df = Ok r ->
     exists i q,
       rows df !! i = Some r /\
       duration_of (columns df) r = Ok (Some q) /\
       forall j r' q',
         rows df !! j = Some r' ->
         duration_of (columns df) r' = Ok (Some q') ->
         (q' <= q)%Q /\ ((j < i)%nat -> (q' < q)%Q)) /\
  (forall df r,
     shortest df = Ok r ->
     exists i q,
       rows df !! i = Some r /\
       duration_of (columns df) r = Ok (Some q) /\
       forall j r' q',
         rows df !! j = Some r' ->
         duration_of (columns df) r' = Ok (Some q') ->
         (q <= q')%Q /\ ((j < i)%nat -> (q < q')%Q)).
Proof.
  split; [|split].
  - intros cols r q Hcol Hd. unfold records, df_empty. cbn [columns rows].
    rewrite bool_decide_eq_false_2 by done.
    rewrite bool_decide_eq_false_2 by (intros ->; by apply elem_of_nil in Hcol).
    unfold longest, shortest, idxmax, idxmin. cbn [orb].
    by rewrite !(single_row_pick _ cols r q).
  - intros df r H. unfold longest, idxmax in H.
    apply (loc_idx_best Qgtb Qle Qlt); [..|exact H];
      eauto using Qgtb_true, Qgtb_false, Qle_refl, Qlt_le_weak, Qle_trans, Qle_lt_trans.
  - intros df r H. unfold shortest, idxmin in H.
    apply (loc_idx_best Qltb (fun a b => b <= a)%Q (fun a b => b < a)%Q);
      [..|exact H]; simpl;
      eauto using Qltb_true, Qltb_false, Qle_refl, Qlt_le_weak, Qle_trans, Qlt_le_trans.
Qed.

Lemma records_pick_first_extreme_witness :
  records one_session =
    Some (Ok [Str "2024-01-01 10:00"; Str "Math"; Str "Algebra"; Float (25 # 1); Int 1],
          Ok [Str "2024-01-01 10:00"; Str "Math"; Str "Algebra"; Float (25 # 1); Int 1]) /\
  (exists i q,
     rows tied_sessions !! i =
       Some [Str "2024-01-02 10:00"; Str "Bio"; Str "Cells"; Float (45 # 1); Int 0] /\
     duration_of (columns tied_sessions)
       [Str "2024-01-02 10:00"; Str "Bio"; Str "Cells"; Float (45 # 1); Int 0] = Ok (Some q) /\
     forall j r' q',
       rows tied_sessions !! j = Some r' ->
       duration_of (columns tied_sessions) r' = Ok (Some q') ->
       (q' <= q)%Q /\ ((j < i)%nat -> (q' < q)%Q)) /\
  (exists i q,
     rows tied_sessions !! i =
       Some [Str "2024-01-04 10:00"; Str "Art"; Str "Ink"; Float (10 # 1); Int 0] /\
     duration_of (columns tied_sessions)
       [Str "2024-01-04 10:00"; Str "Art"; Str "Ink"; Float (10 # 1); Int 0] = Ok (Some q) /\
     forall j r' q',
       rows tied_sessions !! j = Some r' ->
       duration_of (columns tied_sessions) r' = Ok (Some q') ->
       (q <= q')%Q /\ ((j < i)%nat -> (q < q')%Q)).
Proof.
  split; [|split].
  - apply (proj1 records_pick_first_extreme canonical_columns _ (25 # 1)).
    + by_evaluation.
    + reflexivity.
  - apply (proj1 (proj2 records_pick_first_extreme) tied_sessions). reflexivity.
  - apply (proj2 (proj2 records_pick_first_extreme) tied_sessions). reflexivity.
Defined.

(** *** Totals by subject *)

(** Rational addition is commutative and associative up to [=], not only
    up to [==]: totals do not depend on the order of the addends. *)
Lemma Qplus_swap (a b c : Q) : (a + b + c)%Q = (a + c + b)%Q.
Proof.
  destruct a as [an ad], b as [bn bd], c as [cn cd].
  unfold Qplus. simpl. f_equal.
  - rewrite !Pos2Z.inj_mul. ring.
  - rewrite <- !Pos.mul_assoc. f_equal. apply Pos.mul_comm.
Qed.

Lemma add_to_group_key m k v :
  add_to_group m (k, v) =
    if decide (k = NaN) then m
    else <[k := (default 0 (m !! k) + default 0 v)%Q]> m.
Proof. unfold add_to_group. by destruct k. Qed.

Lemma add_to_group_comm m p1 p2 :
  add_to_group (add_to_group m p1) p2 = add_to_group (add_to_group m p2) p1.
Proof.
  destruct p1 as [k1 v1], p2 as [k2 v2]. rewrite !add_to_group_key.
  destruct (decide (k1 = NaN)), (decide (k2 = NaN)); try done.
  destruct (decide (k1 = k2)) as [->|Hne].
  - rewrite !lookup_insert_eq, !insert_insert_eq. simpl. f_equal. apply Qplus_swap.
  - rewrite !lookup_insert_ne by done. by apply insert_insert_ne.
Qed.

Lemma foldl_add_to_group_perm ps ps' m :
  ps ≡ₚ ps' -> foldl add_to_group m ps = foldl add_to_group m ps'.
Proof.
  intros Hp. revert m. induction Hp as [|p ps ps' _ IH|p1 p2 ps|ps1 ps2 ps3 _ IH1 _ IH2];
    intros m; simpl.
  - done.
  - apply IH.
  - by rewrite add_to_group_comm.
  - by rewrite IH1.
Qed.

(** Permuting the rows permutes the (key, number) pairs of two columns. *)
Lemma numeric_zip_perm (f g : list cell -> cell) rs rs' ns :
  rs ≡ₚ rs' ->
  numeric (map g rs) = Ok ns ->
  exists ns', numeric (map g rs') = Ok ns' /\
    zip (map f rs) ns ≡ₚ zip (map f rs') ns'.
Proof.
  intros Hp. revert ns.
  induction Hp as [|r rs rs' _ IH|r1 r2 rs|rs1 rs2 rs3 _ IH1 _ IH2]; intros ns.
  - intros [= <-]. by exists [].
  - simpl map. intros (n & ns0 & Hn & Hns0 & ->)%numeric_cons_Ok.
    destruct (IH ns0 Hns0) as (ns0' & Hns0' & Hz).
    exists (n :: ns0'). split; [apply numeric_cons_Ok; by exists n, ns0'|].
    simpl. by constructor.
  - simpl map. intros (n2 & ns1 & Hn2 & Hns1 & ->)%numeric_cons_Ok.
    apply numeric_cons_Ok in Hns1 as (n1 & ns0 & Hn1 & Hns0 & ->).
    exists (n1 :: n2 :: ns0). split.
    + apply numeric_cons_Ok. exists n1, (n2 :: ns0). split; [done|]. split; [|done].
      apply numeric_cons_Ok. by exists n2, ns0.
    + simpl. apply Permutation_swap.
  - intros Hns. destruct (IH1 ns Hns) as (ns2 & Hns2 & Hz1).
    destruct (IH2 ns2 Hns2) as (ns3 & Hns3 & Hz2).
    exists ns3. split; [done|]. by etrans.
Qed.

Lemma groupby_sum_perm key val cols rs rs' m :
  rs ≡ₚ rs' ->
  groupby_sum key val {| columns := cols; rows := rs |} = Ok m ->
  groupby_sum key val {| columns := cols; rows := rs' |} = Ok m.
Proof.
  intros Hp. unfold groupby_sum, column. cbn [columns rows].
  destruct (decide (key ∈ cols)) as [Hkey|]; [|done].
  destruct (decide (val ∈ cols)) as [Hval|]; [|done]. simpl.
  destruct (numeric (map _ rs)) as [ns|err] eqn:Hns; [|done]. simpl.
  intros [= <-].
  destruct (numeric_zip_perm (fun r => row_get cols r key) _ rs rs' ns Hp Hns)
    as (ns' & -> & Hz).
  simpl. f_equal. symmetry. by apply foldl_add_to_group_perm.
Qed.

(** Sorting the totals by value keeps what each label maps to. *)
Lemma series_get_sort_values (m : gmap cell Q) k :
  series_get (sort_values (map_to_list m)) k = m !! k.
Proof.
  unfold series_get, sort_values.
  rewrite (list_to_map_proper _ (map_to_list m)).
  - by rewrite list_to_map_to_list.
  - rewrite merge_sort_Permutation. apply NoDup_fst_map_to_list.
  - apply merge_sort_Permutation.
Qed.

(** Permuting the rows permutes the numbers of a column. *)
Lemma numeric_perm (g : list cell -> cell) rs rs' ns :
  rs ≡ₚ rs' ->
  numeric (map g rs) = Ok ns ->
  exists ns', numeric (map g rs') = Ok ns' /\ ns ≡ₚ ns'.
Proof.
  intros Hp Hns.
  destruct (numeric_zip_perm g g rs rs' ns Hp Hns) as (ns' & Hns' & Hz).
  exists ns'. split; [done|].
  apply (fmap_Permutation snd) in Hz.
  rewrite !snd_zip in Hz; [done| |].
  - apply numeric_Forall2, Forall2_length in Hns'. rewrite length_map in *. lia.
  - apply numeric_Forall2, Forall2_length in Hns. rewrite length_map in *. lia.
Qed.

Lemma foldl_sum_perm (ns ns' : list (option Q)) (a : Q) :
  ns ≡ₚ ns' ->
  foldl (fun acc n => (acc + default 0 n)%Q) a ns =
  foldl (fun acc n => (acc + default 0 n)%Q) a ns'.
Proof.
  intros Hp. revert a.
  induction Hp as [|n ns ns' _ IH|n1 n2 ns|ns1 ns2 ns3 _ IH1 _ IH2]; intros a; simpl.
  - done.
  - apply IH.
  - by rewrite Qplus_swap.
  - by rewrite IH1.
Qed.

(** Numbers that float64 adds without rounding still are in any order. *)
Lemma added_exactly_perm ns ns' : ns ≡ₚ ns' -> added_exactly ns -> added_exactly ns'.
Proof.
  intros Hp [Hall Hsum]. split.
  - by rewrite <- Hp.
  - unfold series_sum in *. by rewrite <- (foldl_sum_perm ns ns' 0 Hp).
Qed.

(** Whole numbers of minutes, not negative, adding up to at most 2^53. *)
Lemma added_exactly_whole (zs : list Z) :
  Forall (fun z => 0 <= z) zs ->
  (series_sum ((fun z => Some (inject_Z z)) <$> zs) <= inject_Z (2 ^ 53))%Q ->
  added_exactly ((fun z => Some (inject_Z z)) <$> zs).
Proof.
  intros Hz Hsum. split; [|done].
  apply Forall_fmap. eapply Forall_impl; [exact Hz|].
  intros z Hz0. simpl. by exists z.
Qed.

(** C7, as amended: for every table whose durations float64 adds without
    rounding (whole minutes, as the timer logs them, adding up to at most
    2^53) and every permutation of its rows, the durations of the permuted
    table are added without rounding as well, the totals by subject are
    computed for the permuted table whenever they are for the original,
    and every subject maps to the same total in both. *)
Theorem subject_stats_permutation_invariant
    (cols : list string) (rs rs' : list (list cell)) (ns : list (option Q))
    (s : list (cell * Q)) :
  rs ≡ₚ rs' ->
  numeric_column {| columns := cols; rows := rs |} "Duration_Minutes" = Ok ns ->
  added_exactly ns ->
  subject_stats {| columns := cols; rows := rs |} = Ok s ->
  exists ns' s',
    numeric_column {| columns := cols; rows := rs' |} "Duration_Minutes" = Ok ns' /\
    added_exactly ns' /\
    subject_stats {| columns := cols; rows := rs' |} = Ok s' /\
    forall k, series_get s' k = series_get s k.
Proof.
  intros Hp Hns Hexact. unfold subject_stats.
  destruct (groupby_sum _ _ {| columns := cols; rows := rs |}) as [m|e] eqn:Hm; [|done].
  simpl. intros [= <-].
  unfold numeric_column, column in Hns |- *. cbn [columns rows] in Hns |- *.
  destruct (decide ("Duration_Minutes" ∈ cols)) as [Hc|]; [|done].
  cbn [mbind result_bind] in Hns |- *.
  destruct (numeric_perm _ rs rs' ns Hp Hns) as (ns' & Hns' & Hperm).
  exists ns'. eexists. split; [exact Hns'|].
  split; [by apply (added_exactly_perm ns)|].
  rewrite (groupby_sum_perm _ _ cols rs rs' m Hp Hm). simpl.
  split; [done|]. intros k. by rewrite !series_get_sort_values.
Qed.

Lemma subject_stats_permutation_invariant_witness :
  exists ns' s',
    numeric_column {| columns := canonical_columns;
                      rows := reverse (rows tied_sessions) |} "Duration_Minutes" = Ok ns' /\
    added_exactly ns' /\
    subject_stats {| columns := canonical_columns;
                     rows := reverse (rows tied_sessions) |} = Ok s' /\
    forall k,
      series_get s' k =
      series_get [(Str "Art", 10 # 1); (Str "Bio", 55 # 1); (Str "Math", 70 # 1)]%Q k.
Proof.
  apply (subject_stats_permutation_invariant canonical_columns
           (rows tied_sessions) (reverse (rows tied_sessions))
           ((fun z => Some (inject_Z z)) <$> [25; 45; 45; 10; 10])).
  - symmetry. apply reverse_Permutation.
  - reflexivity.
  - apply added_exactly_whole; [by_evaluation | by vm_compute].
  - reflexivity.
Defined.

(** C7, as stated, fails: float64 addition is not associative.  Three
    sessions of one subject, of 0.6, 0.6 and 0.17 minutes, add up to a
    smaller float64 in this order than in the reverse order, with and
    without compensation in the sum; in exact arithmetic both orders give
    the same total. *)
Lemma subject_totals_depend_on_row_order :
  let backwards := {| columns := canonical_columns;
                      rows := reverse (rows split_minutes) |} in
  rows backwards ≡ₚ rows split_minutes /\
  subject_stats backwards = subject_stats split_minutes /\
  exists a b a' b' : float,
    group_total64 true "Subject" "Duration_Minutes" split_minutes (Str "Math") =
      Ok (Some a) /\
    group_total64 true "Subject" "Duration_Minutes" backwards (Str "Math") =
      Ok (Some b) /\
    PrimFloat.ltb a b = true /\
    group_total64 false "Subject" "Duration_Minutes" split_minutes (Str "Math") =
      Ok (Some a') /\
    group_total64 false "Subject" "Duration_Minutes" backwards (Str "Math") =
      Ok (Some b') /\
    PrimFloat.ltb a' b' = true.
Proof.
  cbv zeta. split; [apply reverse_Permutation|].
  split; [by vm_compute|].
  do 4 eexists.
  split; [vm_compute; reflexivity|]. split; [vm_compute; reflexivity|].
  split; [by vm_compute|].
  split; [vm_compute; reflexivity|]. split; [vm_compute; reflexivity|].
  by vm_compute.
Qed.

(** *** What the totals are *)

Lemma foldl_add_to_group_lookup ps (m : gmap cell Q) k :
  k ≠ NaN ->
  foldl add_to_group m ps !! k =
    match filter (fun p => p.1 = k) ps with
    | [] => m !! k
    | ps_k => Some (foldl Qplus (default 0%Q (m !! k))
                      ((fun p => default 0%Q p.2) <$> ps_k))
    end.
Proof.
  intros Hk. revert m. induction ps as [|[k' v] ps IH]; intros m; [done|].
  cbn [foldl]. rewrite IH, add_to_group_key, filter_cons. cbn [fst].
  destruct (decide (k' = k)) as [->|Hne].
  - rewrite decide_False by done. rewrite lookup_insert_eq. cbn [default].
    by destruct (filter _ ps).
  - destruct (decide (k' = NaN)); [done|]. by rewrite lookup_insert_ne.
Qed.

(** Every total by subject is the sum, in load order, of the durations
    of the rows of that subject ([NaN] durations counting as zero). *)
Lemma subject_stats_totals df s :
  subject_stats df = Ok s ->
  exists ns,
    numeric (map (fun r => row_get (columns df) r "Duration_Minutes") (rows df)) = Ok ns /\
    forall k, k ≠ NaN ->
      series_get s k =
      total_of k (zip (map (fun r => row_get (columns df) r "Subject") (rows df)) ns).
Proof.
  unfold subject_stats, groupby_sum, column.
  destruct (decide ("Subject" ∈ columns df)) as [Hsub|]; [|done].
  destruct (decide ("Duration_Minutes" ∈ columns df)) as [Hdur|]; [|done].
  simpl. destruct (numeric _) as [ns|err]; [|done]. simpl.
  intros [= <-]. exists ns. split; [done|]. intros k Hk.
  rewrite series_get_sort_values, foldl_add_to_group_lookup by done.
  unfold total_of. by rewrite lookup_empty.
Qed.

Example subject_stats_tied_sessions :
  subject_stats tied_sessions =
    Ok [(Str "Art", 10 # 1); (Str "Bio", 55 # 1); (Str "Math", 70 # 1)]%Q.
Proof. reflexivity. Qed.
(** * Further properties of the script *)

(** ** The store is append-only *)

Lemma filter_known_columns (cols cols' : list string) :
  cols' ⊆ cols -> filter (fun c => c ∉ cols) cols' = [].
Proof.
  intros Hsub. induction cols' as [|c cols' IH]; [done|].
  rewrite filter_cons, decide_False.
  - apply IH. intros x Hx. apply Hsub. by right.
  - intros Hc. apply Hc, Hsub. by left.
Qed.

Lemma forallb_fmap_impl {A B} (p : A -> bool) (q : B -> bool) (f : A -> B)
    (l : list A) :
  (forall x, p x = true -> q (f x) = true) ->
  forallb p l = true -> forallb q (f <$> l) = true.
Proof.
  intros Hpq. induction l as [|x l IH]; [done|].
  rewrite fmap_cons. cbn [forallb].
  intros [Hx Hl]%andb_true_iff. by rewrite (Hpq x Hx), IH.
Qed.

Lemma own_row_cells r :
  own_row r = true ->
  exists d s t q b,
    r = [Str d; Str s; Str t; Float q; Int b] /\
    plain_text d = true /\ plain_text s = true /\ plain_text t = true.
Proof.
  destruct r as [|[d| | |] [|[s| | |] [|[t| | |] [|[| |q|] [|[|b| |] [|]]]]]];
    try done.
  simpl. intros [[[[Hd Hs]%andb_true_iff Ht]%andb_true_iff _]%andb_true_iff _]%andb_true_iff.
  by exists d, s, t, q, b.
Qed.

(** In a frame of the script's own rows every column is of one kind. *)
Lemma own_column_kind rs c :
  forallb own_row rs = true -> c ∈ canonical_columns ->
  let col := column_cells {| columns := canonical_columns; rows := rs |} c in
  forallb is_plain col = true \/ forallb is_float col = true \/
  forallb is_int col = true.
Proof.
  intros Hrs Hc col. unfold col, column_cells. cbn [columns rows].
  unfold canonical_columns in Hc.
  rewrite !elem_of_cons, elem_of_nil in Hc.
  destruct Hc as [->|[->|[->|[->|[->|[]]]]]].
  1-3: left; apply (forallb_fmap_impl own_row); [|done];
    intros r (d & s & t & q & b & -> & Hd & Hs & Ht)%own_row_cells; done.
  - right; left. apply (forallb_fmap_impl own_row); [|done].
    by intros r (d & s & t & q & b & -> & _)%own_row_cells.
  - right; right. apply (forallb_fmap_impl own_row); [|done].
    by intros r (d & s & t & q & b & -> & _)%own_row_cells.
Qed.

Lemma own_rows_full rs :
  forallb own_row rs = true ->
  Forall (fun r => length r = length canonical_columns) rs.
Proof.
  intros Hrs. apply Forall_lookup. intros i r Hi.
  apply (forallb_lookup _ _ _ _ Hrs) in Hi.
  by apply own_row_cells in Hi as (d & s & t & q & b & -> & _).
Qed.

(** A frame of the script's own rows is of one dtype per column, and is
    read back as it is written. *)
Lemma own_frame_fixed (f : list cell -> list cell) rs :
  (forall l, forallb is_plain l = true \/ forallb is_float l = true \/
             forallb is_int l = true -> f l = l) ->
  forallb own_row rs = true ->
  by_column f {| columns := canonical_columns; rows := rs |} =
    {| columns := canonical_columns; rows := rs |}.
Proof.
  intros Hf Hrs. apply by_column_fixed.
  - by_evaluation.
  - by apply own_rows_full.
  - intros c Hc. by apply Hf, own_column_kind.
Qed.

(** Appending an entry to a frame of the script's own rows adds no
    column and touches no row. *)
Lemma concat_own_frame now subject topic d b rs :
  forallb own_row (rs ++ [[Str now; Str subject; Str topic; Float (round2 d); Int b]]) = true ->
  concat {| columns := canonical_columns; rows := rs |}
         (new_entry now subject topic d b) =
    {| columns := canonical_columns;
       rows := rs ++ [[Str now; Str subject; Str topic; Float (round2 d); Int b]] |}.
Proof.
  intros Hown.
  assert (Hrs : forallb own_row rs = true).
  { rewrite forallb_app in Hown. by apply andb_true_iff in Hown as [? _]. }
  assert (Hrows : map (reindex canonical_columns canonical_columns) rs = rs).
  { rewrite <- (list_fmap_id rs) at 2. apply Forall_fmap_ext_1.
    eapply Forall_impl; [by apply own_rows_full|].
    intros r Hr. apply reindex_id; [by_evaluation | done]. }
  unfold concat. cbn [columns rows new_entry].
  rewrite filter_known_columns by done. rewrite app_nil_r, Hrows.
  by apply (own_frame_fixed upcast); [apply upcast_fixed|].
Qed.

Lemma save_own_row now subject topic d b rs :
  forallb own_row rs = true ->
  own_row [Str now; Str subject; Str topic; Float (round2 d); Int b] = true ->
  save_session now NoFault subject topic d b
    (Some (Csv {| columns := canonical_columns; rows := rs |})) =
    (Some (Csv {| columns := canonical_columns;
                  rows := rs ++ [[Str now; Str subject; Str topic;
                                  Float (round2 d); Int b]] |}),
     Ok tt).
Proof.
  intros Hrs Hnew.
  assert (Hown : forallb own_row
            (rs ++ [[Str now; Str subject; Str topic; Float (round2 d); Int b]]) = true).
  { rewrite forallb_app, Hrs. cbn [forallb andb]. by rewrite Hnew. }
  unfold save_session. rewrite load_data_with_breaks by by_evaluation.
  cbn [to_csv]. rewrite concat_own_frame by done.
  unfold reread. by rewrite (own_frame_fixed infer_column); [|apply infer_column_fixed|].
Qed.

(** X1: on a file in the script's own format (the canonical columns; in
    every row a date, a subject and a topic that are plain text, a float
    duration of at most two decimals and an integer break count),
    [save_session] of a session of this kind on a working disk rewrites
    the file with the same rows, cell for cell, followed by the session's
    row. *)
Theorem save_session_appends_one_row (now subject topic : string) (d : Q) (b : Z)
    (rs : list (list cell)) :
  forallb own_row rs = true ->
  own_row [Str now; Str subject; Str topic; Float (round2 d); Int b] = true ->
  save_session now NoFault subject topic d b
    (Some (Csv {| columns := canonical_columns; rows := rs |})) =
    (Some (Csv {| columns := canonical_columns;
                  rows := rs ++ [[Str now; Str subject; Str topic;
                                  Float (round2 d); Int b]] |}),
     Ok tt).
Proof. intros Hrs Hnew. by apply save_own_row. Qed.

Lemma save_session_appends_one_row_witness :
  save_session "2024-01-03 08:00" NoFault "Bio" "Cells" (4567 # 100) 2
    (Some (Csv one_session)) =
    (Some (Csv {| columns := canonical_columns;
                  rows := [[Str "2024-01-01 10:00"; Str "Math"; Str "Algebra";
                            Float (25 # 1); Int 1];
                           [Str "2024-01-03 08:00"; Str "Bio"; Str "Cells";
                            Float (4567 # 100); Int 2]] |}),
     Ok tt).
Proof.
  exact (save_session_appends_one_row "2024-01-03 08:00" "Bio" "Cells" (4567 # 100) 2
           (rows one_session) eq_refl eq_refl).
Defined.

Lemma append_own x rs :
  forallb own_row rs = true -> own_row (entry_row x) = true ->
  append (Some (Csv {| columns := canonical_columns; rows := rs |})) x =
    Some (Csv {| columns := canonical_columns; rows := rs ++ [entry_row x] |}).
Proof.
  intros Hrs Hx. unfold append. by rewrite save_own_row.
Qed.

Lemma append_all_own xs rs :
  forallb own_row rs = true -> forallb own_row (entry_row <$> xs) = true ->
  foldl append (Some (Csv {| columns := canonical_columns; rows := rs |})) xs =
    Some (Csv {| columns := canonical_columns; rows := rs ++ (entry_row <$> xs) |}).
Proof.
  revert rs. induction xs as [|x xs IH]; intros rs Hrs Hxs.
  - by rewrite app_nil_r.
  - rewrite fmap_cons in Hxs. cbn [forallb] in Hxs.
    apply andb_true_iff in Hxs as [Hx Hxs].
    cbn [foldl]. rewrite append_own by done.
    rewrite IH; [by rewrite <- app_assoc | | done].
    rewrite forallb_app, Hrs. cbn [forallb andb]. by rewrite Hx.
Qed.

Lemma append_first x :
  own_row (entry_row x) = true ->
  append None x =
    Some (Csv {| columns := canonical_columns; rows := [entry_row x] |}).
Proof.
  intros Hx. unfold append.
  change (save_session (s_date x) NoFault (s_subject x) (s_topic x)
            (s_minutes x) (s_breaks x) None)
    with (save_session (s_date x) NoFault (s_subject x) (s_topic x)
            (s_minutes x) (s_breaks x)
            (Some (Csv {| columns := canonical_columns; rows := [] |}))).
  by rewrite (save_own_row _ _ _ _ _ []).
Qed.

(** The file that the script writes when every session gives a row that
    is read back as written. *)
Lemma own_file (x : session) (xs : list session) :
  forallb own_row (entry_row <$> x :: xs) = true ->
  foldl append None (x :: xs) =
    Some (Csv {| columns := canonical_columns; rows := entry_row <$> (x :: xs) |}).
Proof.
  rewrite fmap_cons. cbn [forallb]. intros [Hx Hxs]%andb_true_iff.
  cbn [foldl]. rewrite append_first by done.
  by rewrite append_all_own by (done || (cbn [forallb]; by rewrite Hx)).
Qed.

(** X2: starting without a file, saving sessions whose date, subject and
    topic are plain text and whose numbers are within [session_bounds],
    one after the other on a working disk, leaves a file with the
    canonical columns and exactly one row per session, in the order of the
    saves; no save reorders, rewrites or drops an earlier row. *)
Theorem appends_keep_order (x : session) (xs : list session) :
  forallb own_row (entry_row <$> x :: xs) = true ->
  foldl append None (x :: xs) =
    Some (Csv {| columns := canonical_columns;
                 rows := entry_row <$> (x :: xs) |}).
Proof. apply own_file. Qed.

Lemma appends_keep_order_witness :
  foldl append None
    [mkSession "2024-01-01 10:00" "Math" "Algebra" (25 # 1) 1;
     mkSession "2024-01-02 09:30" "Bio" "Cells" (1234567 # 100000) 0] =
    Some (Csv {| columns := canonical_columns;
                 rows := [[Str "2024-01-01 10:00"; Str "Math"; Str "Algebra";
                           Float (25 # 1); Int 1];
                          [Str "2024-01-02 09:30"; Str "Bio"; Str "Cells";
                           Float (247 # 20); Int 0]] |}).
Proof.
  exact (appends_keep_order
           (mkSession "2024-01-01 10:00" "Math" "Algebra" (25 # 1) 1)
           [mkSession "2024-01-02 09:30" "Bio" "Cells" (1234567 # 100000) 0]
           eq_refl).
Defined.

(** ** What the timer writes, and when *)

(** X3: a run changes the file only if it finds the timer running with
    nothing left and was triggered neither by "Set / Reset Timer" nor by
    "Pause": setting, resetting, pausing, resuming and counting down never
    persist anything, so a session that is reset or left paused is not
    logged. *)
Theorem script_writes_only_at_expiry (i : run_inputs) (s : session_state)
    (fs : filesystem) :
  (script i (s, fs)).1.2 ≠ fs ->
  clicked i ≠ SetResetTimer /\ clicked i ≠ PauseButton /\
  timer_running s = true /\ time_left s <= 0.
Proof.
  destruct s as [t r it b]. unfold script, set_reset, timer_logic.
  destruct (decide (clicked i = SetResetTimer)) as [Hset|Hset]; simpl.
  { rewrite decide_False by (rewrite Hset; done). by intros []. }
  destruct r; simpl.
  - destruct (decide (clicked i = PauseButton)) as [Hp|Hp]; simpl; [by intros []|].
    destruct (0 <? t) eqn:Ht; simpl; [by intros []|].
    apply Z.ltb_ge in Ht. done.
  - destruct (decide (clicked i = StartResume)); simpl; by intros [].
Qed.

Lemma script_writes_only_at_expiry_witness :
  clicked (with_event default_inputs Tick) ≠ SetResetTimer /\
  clicked (with_event default_inputs Tick) ≠ PauseButton /\
  timer_running (mkState 0 true 1500 0) = true /\
  time_left (mkState 0 true 1500 0) <= 0.
Proof.
  apply (script_writes_only_at_expiry (with_event default_inputs Tick)
           (mkState 0 true 1500 0) None).
  by vm_compute.
Defined.

(** X4: when the save of the expiry run raises, the timer is stopped but
    the initial time and the break count are kept (they are zeroed only
    after a save that returns); "Start / Resume" followed by its rerun
    then runs the expiry branch again for the same session, on the file
    as the failed save left it. *)
Theorem failed_save_keeps_session (i i' : run_inputs) (s s1 : session_state)
    (fs fs1 : filesystem) (e : error) :
  timer_running s = true -> time_left s <= 0 ->
  script (with_event i Tick) (s, fs) = ((s1, fs1), Raised e) ->
  s1 = mkState (time_left s) false (initial_time s) (break_count s) /\
  fs1 = (save_session (now i) (fault i) (subject i) (topic i)
           (inject_Z (initial_time s) / 60) (break_count s) fs).1 /\
  run_events i' [Start; Tick] (s1, fs1) = (script (with_event i' Tick) (s, fs1)).1.
Proof.
  intros Hr Ht. rewrite script_tick_expiry by done.
  destruct (save_session _ _ _ _ _ _ _) as [fs' [[]|e']]; [done|].
  intros [= <- <- <-]. split; [done|]. split; [done|].
  unfold run_events. cbn [foldl]. unfold step at 2.
  rewrite script_start by done. cbn [fst time_left initial_time break_count].
  destruct s as [t r it b]. simpl in Hr. by subst r.
Qed.

Lemma failed_save_keeps_session_witness :
  mkState 0 false 1500 2 = mkState 0 false 1500 2 /\
  Some EmptyFile =
    (save_session "2024-01-03 08:00" (FailsAfter 0) "General" "Study Session"
       (inject_Z 1500 / 60) 2 None).1 /\
  run_events default_inputs [Start; Tick] (mkState 0 false 1500 2, Some EmptyFile) =
    (script (with_event default_inputs Tick) (mkState 0 true 1500 2, Some EmptyFile)).1.
Proof.
  exact (failed_save_keeps_session
           (mkInputs "General" "Study Session" 0 25 NoButton "2024-01-03 08:00"
              (FailsAfter 0))
           default_inputs (mkState 0 true 1500 2) (mkState 0 false 1500 2)
           None (Some EmptyFile) OSError eq_refl ltac:(simpl; lia) eq_refl).
Defined.

(** ** Rounding and the logged duration *)

(** X5: [round2] gives the hundredth nearest to its argument, and of two
    equally near hundredths the even one (Python's [round(x, 2)] on the
    exact value): [round2 x] is [z / 100] for an integer [z] with
    [|100 x - z| <= 1/2], and [z] is even when the distance is [1/2]. *)
Theorem round2_nearest_hundredth (x : Q) :
  exists z : Z,
    (round2 x == z # 100)%Q /\
    (- (1 # 2) <= x * (100 # 1) - inject_Z z <= 1 # 2)%Q /\
    ((x * (100 # 1) - inject_Z z == 1 # 2 \/
      x * (100 # 1) - inject_Z z == - (1 # 2))%Q -> Z.even z = true).
Proof.
  exists (round_half_even (x * (100 # 1))). split.
  - unfold round2. apply Qred_correct.
  - apply (round_half_even_nearest (x * (100 # 1))).
Qed.

Lemma round_half_even_integer (q : Q) (z : Z) :
  (q == inject_Z z)%Q -> round_half_even q = z.
Proof.
  destruct q as [n d]. unfold Qeq, inject_Z, round_half_even. cbn [Qnum Qden].
  intros H. assert (Hn : n = z * Z.pos d) by lia. subst n.
  rewrite Z.div_mul, Z.mod_mul by lia.
  replace (2 * 0 <? Z.pos d) with true by (symmetry; apply Z.ltb_lt; lia). done.
Qed.

(** A whole number of minutes is logged as it is. *)
Lemma round2_whole_minutes (k : Z) :
  (round2 (inject_Z (60 * k) / 60) == inject_Z k)%Q.
Proof.
  unfold round2. rewrite Qred_correct.
  rewrite (round_half_even_integer _ (100 * k)).
  - unfold Qeq, inject_Z. simpl. lia.
  - unfold Qeq, Qdiv, Qmult, Qinv, inject_Z. simpl. lia.
Qed.

Lemma script_keeps_whole_minutes i s fs :
  valid_duration (hours i) (minutes i) ->
  (0 <= break_count s /\ exists k, 0 <= k <= 1499 /\ initial_time s = 60 * k) ->
  0 <= break_count (script i (s, fs)).1.1 /\
  exists k, 0 <= k <= 1499 /\ initial_time (script i (s, fs)).1.1 = 60 * k.
Proof.
  intros [Hh Hm] [Hb (k & Hk & Hi)]. unfold script, timer_logic, set_reset.
  destruct s as [t r it b]. simpl in Hb, Hi.
  assert (H0 : 0 <= 0 /\ exists k0, 0 <= k0 <= 1499 /\ 0 = 60 * k0)
    by (split; [lia | exists 0; lia]).
  assert (Hset : 0 <= 0 /\ exists k0, 0 <= k0 <= 1499 /\
            hours i * 3600 + minutes i * 60 = 60 * k0)
    by (split; [lia | exists (hours i * 60 + minutes i); lia]).
  assert (Hkeep : forall b', 0 <= b' -> 0 <= b' /\ exists k0, 0 <= k0 <= 1499 /\ it = 60 * k0)
    by (intros b' Hb'; split; [done | by exists k]).
  repeat first
    [ progress simpl
    | exact H0
    | exact Hset
    | apply Hkeep; lia
    | case_decide
    | match goal with
      | |- context [if ?b then _ else _] => destruct b eqn:?
      | |- context [match save_session ?a ?b ?c ?d ?e ?f ?g with _ => _ end] =>
          destruct (save_session a b c d e f g) as [? [[]|?]]
      end ].
Qed.

(** X6: in every world that runs of the script reach from a fresh
    session the break count is not negative and the initial time is a
    whole number [k] of minutes, at most 24 h 59 min; so the duration that
    an expiry hands to [save_session] is logged without rounding error,
    as [k] minutes. *)
Theorem reachable_duration_is_whole_minutes (w : world) :
  reachable w ->
  0 <= break_count w.1 /\
  exists k, 0 <= k <= 1499 /\ initial_time w.1 = 60 * k /\
    (round2 (inject_Z (initial_time w.1) / 60) == inject_Z k)%Q.
Proof.
  intros Hw.
  assert (H : 0 <= break_count w.1 /\
              exists k, 0 <= k <= 1499 /\ initial_time w.1 = 60 * k).
  { induction Hw as [fs|i [s fs] Hv Hw IH]; [split; [done | exists 0; simpl; lia]|].
    by apply script_keeps_whole_minutes. }
  destruct H as [Hb (k & Hk & Hi)]. split; [done|].
  exists k. split; [done|]. split; [done|].
  rewrite Hi. apply round2_whole_minutes.
Qed.

Lemma reachable_duration_is_whole_minutes_witness :
  0 <= 0 /\
  exists k, 0 <= k <= 1499 /\ 5400 = 60 * k /\
    (round2 (inject_Z 5400 / 60) == inject_Z k)%Q.
Proof.
  refine (reachable_duration_is_whole_minutes (mkState 5399 true 5400 0, None) _).
  exact (reach_run (with_event default_inputs Tick) _
           ltac:(unfold valid_duration; simpl; lia)
           (reach_run (with_event default_inputs Start) _
              ltac:(unfold valid_duration; simpl; lia)
              (reach_run (with_event default_inputs (Configure 1 30)) _
                 ltac:(unfold valid_duration; simpl; lia)
                 (reach_fresh None)))).
Defined.

(** ** The clock display *)

Lemma string_length_app (a b : string) :
  String.length (a +:+ b) = (String.length a + String.length b)%nat.
Proof. induction a as [|c a IH]; simpl; [done | by rewrite IH]. Qed.

Lemma string_app_inj (a a' b b' : string) :
  String.length a = String.length a' ->
  a +:+ b = a' +:+ b' -> a = a' /\ b = b'.
Proof.
  revert a'. induction a as [|c a IH]; intros [|c' a']; simpl; try done.
  intros [= Hlen] [= -> Happ]. destruct (IH a' Hlen Happ) as [-> ->]. done.
Qed.

(** Up to 99 the padded text has two characters and tells the number. *)
Lemma pad2_two_digits (z : Z) :
  0 <= z < 100 -> String.length (pad2 z) = 2%nat.
Proof.
  intros Hz.
  assert (H : Forall (fun z => String.length (pad2 z) = 2%nat) (seqZ 0 100))
    by by_vm_evaluation.
  rewrite Forall_forall in H. apply H, elem_of_seqZ. lia.
Qed.

Lemma pad2_inj (a b : Z) :
  0 <= a < 100 -> 0 <= b < 100 -> pad2 a = pad2 b -> a = b.
Proof.
  intros Ha Hb.
  assert (H : Forall (fun a => Forall (fun b => pad2 a = pad2 b -> a = b) (seqZ 0 100))
                (seqZ 0 100)) by by_vm_evaluation.
  rewrite Forall_forall in H. specialize (H a). rewrite Forall_forall in H.
  apply H; apply elem_of_seqZ; lia.
Qed.

Lemma format_time_fields (seconds : Z) :
  0 <= seconds < 360000 ->
  exists h m s,
    0 <= h < 100 /\ 0 <= m < 60 /\ 0 <= s < 60 /\
    seconds = h * 3600 + m * 60 + s /\
    format_time seconds = pad2 h +:+ ":" +:+ pad2 m +:+ ":" +:+ pad2 s.
Proof.
  intros Hs.
  exists (seconds / 3600), (seconds mod 3600 / 60), (seconds mod 3600 mod 60).
  pose proof (Z.div_mod seconds 3600 ltac:(lia)).
  pose proof (Z.mod_pos_bound seconds 3600 ltac:(lia)).
  pose proof (Z.div_mod (seconds mod 3600) 60 ltac:(lia)).
  pose proof (Z.mod_pos_bound (seconds mod 3600) 60 ltac:(lia)).
  assert (0 <= seconds / 3600 < 100)
    by (split; [apply Z.div_pos; lia | apply Z.div_lt_upper_bound; lia]).
  assert (0 <= seconds mod 3600 / 60 < 60)
    by (split; [apply Z.div_pos; lia | apply Z.div_lt_upper_bound; lia]).
  repeat split; try lia.
Qed.

(** X7: for a number of seconds from 0 up to 99:59:59 the display is a
    text of eight characters, with a colon as the third and as the sixth. *)
Theorem format_time_clock (seconds : Z) :
  0 <= seconds < 360000 ->
  String.length (format_time seconds) = 8%nat /\
  String.get 2 (format_time seconds) = Some ":"%char /\
  String.get 5 (format_time seconds) = Some ":"%char.
Proof.
  intros (h & m & s & Hh & Hm & Hs & _ & ->)%format_time_fields.
  pose proof (pad2_two_digits h Hh) as Lh.
  pose proof (pad2_two_digits m ltac:(lia)) as Lm.
  pose proof (pad2_two_digits s ltac:(lia)) as Ls.
  destruct (pad2 h) as [|h1 [|h2 [|? ?]]]; try done.
  destruct (pad2 m) as [|m1 [|m2 [|? ?]]]; try done.
  destruct (pad2 s) as [|s1 [|s2 [|? ?]]]; done.
Qed.

Lemma format_time_clock_witness :
  String.length (format_time 89940) = 8%nat /\
  String.get 2 (format_time 89940) = Some ":"%char /\
  String.get 5 (format_time 89940) = Some ":"%char.
Proof. apply (format_time_clock 89940). lia. Defined.

(** X8: within that range different numbers of seconds are displayed
    differently: the text shown determines the time left. *)
Theorem format_time_injective (a b : Z) :
  0 <= a < 360000 -> 0 <= b < 360000 ->
  format_time a = format_time b -> a = b.
Proof.
  intros (h & m & s & Hh & Hm & Hs & -> & ->)%format_time_fields
         (h' & m' & s' & Hh' & Hm' & Hs' & -> & ->)%format_time_fields Heq.
  apply string_app_inj in Heq as [Eh Heq];
    [|by rewrite !pad2_two_digits by lia].
  apply (string_app_inj ":" ":") in Heq as [_ Heq]; [|done].
  apply string_app_inj in Heq as [Em Heq];
    [|by rewrite !pad2_two_digits by lia].
  apply (string_app_inj ":" ":") in Heq as [_ Es]; [|done].
  apply pad2_inj in Eh, Em, Es; lia.
Qed.

Lemma format_time_injective_witness : 1500 = 25 * 60.
Proof. apply (format_time_injective 1500 (25 * 60)); [lia | lia | reflexivity]. Defined.

(** X9: in every world that runs of the script reach from a fresh
    session the time left is at most 24:59:00, so the display has the
    form HH:MM:SS with two digits each. *)
Theorem reachable_display_is_clock (w : world) :
  reachable w ->
  0 <= time_left w.1 <= 89940 /\
  String.length (format_time (time_left w.1)) = 8%nat.
Proof.
  intros Hw.
  assert (H : (0 <= time_left w.1 <= initial_time w.1) /\
              (0 <= break_count w.1 /\
               exists k, 0 <= k <= 1499 /\ initial_time w.1 = 60 * k)).
  { induction Hw as [fs|i [s fs] Hv Hw [IH1 IH2]].
    - split; [simpl; lia|]. split; [done | exists 0; simpl; lia].
    - split; [by apply script_keeps_bounds | by apply script_keeps_whole_minutes]. }
  destruct H as [Ht [_ (k & Hk & Hi)]].
  assert (Hrange : 0 <= time_left w.1 <= 89940) by lia.
  split; [done|].
  destruct (format_time_fields (time_left w.1) ltac:(lia))
    as (h & m & s & Hh & Hm & Hs & _ & ->).
  rewrite !string_length_app, !pad2_two_digits by lia. done.
Qed.

Lemma reachable_display_is_clock_witness :
  0 <= 1499 <= 89940 /\ String.length (format_time 1499) = 8%nat.
Proof.
  refine (reachable_display_is_clock (mkState 1499 true 1500 0, None) _).
  exact (reach_run (with_event default_inputs Tick) _
           ltac:(unfold valid_duration; simpl; lia)
           (reach_run (with_event default_inputs Start) _
              ltac:(unfold valid_duration; simpl; lia)
              (reach_run (with_event default_inputs (Configure 0 25)) _
                 ltac:(unfold valid_duration; simpl; lia)
                 (reach_fresh None)))).
Defined.

(** ** The headline metrics *)

Lemma series_sum_snoc ns n :
  series_sum (ns ++ [n]) = (series_sum ns + default 0 n)%Q.
Proof. unfold series_sum. by rewrite foldl_app. Qed.

(** The durations read back after a save: the loaded ones, then the
    rounded duration of the session. *)
Lemma stored_durations now subject topic d b df ns :
  numeric_column df "Duration_Minutes" = Ok ns ->
  numeric_column (reread (concat df (new_entry now subject topic d b)))
    "Duration_Minutes" = Ok (ns ++ [Some (round2 d)]).
Proof.
  intros [Hc Hns]%numeric_column_cells.
  assert (Hin : "Duration_Minutes" ∈ columns (concat df (new_entry now subject topic d b))).
  { apply (columns_concat_r df (new_entry now subject topic d b)). by_evaluation. }
  assert (Hnum : numeric (column_cells df "Duration_Minutes" ++ [Float (round2 d)]) =
                   Ok (ns ++ [Some (round2 d)])) by (by apply numeric_app).
  apply numeric_column_of_cells; [done|].
  rewrite column_cells_reread, saved_column by (done || by_evaluation).
  change (row_get canonical_columns _ "Duration_Minutes") with (Float (round2 d)).
  rewrite (infer_column_upcast_numeric _ _ Hnum). by rewrite numeric_upcast.
Qed.

(** X10: when the durations of the table and the rounded duration of a
    session are numbers that float64 adds without rounding (whole
    minutes, as the timer logs them), saving the session on a working disk
    adds the rounded duration to the durations that the table loads with,
    raises the total study time of the dashboard by it and the number of
    sessions by one.  (The hypothesis is what makes the exact sums of the
    embedding the float64 sums of the code.) *)
Theorem totals_grow_with_each_save (fs : filesystem) (x : session)
    (df : DataFrame) (ns : list (option Q)) :
  load_data fs = Ok df ->
  numeric_column df "Duration_Minutes" = Ok ns ->
  added_exactly (ns ++ [Some (round2 (s_minutes x))]) ->
  exists df' t,
    total_time df = Ok t /\
    load_data (append fs x) = Ok df' /\
    numeric_column df' "Duration_Minutes" = Ok (ns ++ [Some (round2 (s_minutes x))]) /\
    total_time df' = Ok (t + round2 (s_minutes x))%Q /\
    total_sessions df' = S (total_sessions df).
Proof.
  intros Hload Hns _.
  exists (reread (concat df (new_entry (s_date x) (s_subject x) (s_topic x)
                               (s_minutes x) (s_breaks x)))), (series_sum ns).
  assert (Happ : append fs x =
            Some (Csv (reread (concat df (new_entry (s_date x) (s_subject x)
                                            (s_topic x) (s_minutes x) (s_breaks x)))))).
  { unfold append. by rewrite (save_session_completes _ _ _ _ _ _ df). }
  split; [unfold total_time; by rewrite Hns|].
  split; [rewrite Happ; apply load_data_stored|].
  split; [by apply stored_durations|].
  split.
  - unfold total_time. rewrite (stored_durations _ _ _ _ _ _ ns) by done.
    simpl. by rewrite series_sum_snoc.
  - unfold total_sessions. rewrite length_rows_reread, length_rows_concat. simpl. lia.
Qed.

Lemma totals_grow_with_each_save_witness :
  exists df' t,
    total_time (assign_column "Breaks" (Int 0) earlier_format) = Ok t /\
    load_data (append (Some (Csv earlier_format))
                 (mkSession "2024-01-03 08:00" "Math" "Algebra" (30 # 1) 1)) = Ok df' /\
    numeric_column df' "Duration_Minutes" =
      Ok ([Some (25 # 1); Some (45 # 1)] ++ [Some (round2 (30 # 1))]) /\
    total_time df' = Ok (t + round2 (30 # 1))%Q /\
    total_sessions df' = 3%nat.
Proof.
  apply (totals_grow_with_each_save (Some (Csv earlier_format))
           (mkSession "2024-01-03 08:00" "Math" "Algebra" (30 # 1) 1)
           (assign_column "Breaks" (Int 0) earlier_format)
           [Some (25 # 1); Some (45 # 1)]); [reflexivity | reflexivity |].
  apply (added_exactly_whole [25; 45; 30]); [by_evaluation | by vm_compute].
Defined.

(** *** Where the scans return *)

Lemma idx_best_lookup better l i :
  idx_best better l = Ok i -> exists q, l !! i = Some (Some q).
Proof.
  unfold idx_best.
  pose proof (first_best_scanned better (fun _ _ => True) (fun _ _ => True)) as H.
  specialize (H ltac:(done) ltac:(done) ltac:(done) ltac:(done) ltac:(done) l [] None).
  simpl in H. destruct (first_best better l 0 None) as [[j q]|]; [|done].
  intros [= <-]. exists q. apply H. by intros k q'.
Qed.

Lemma idx_best_returns better l k q :
  l !! k = Some (Some q) -> exists i, idx_best better l = Ok i.
Proof.
  intros Hk. unfold idx_best.
  pose proof (first_best_scanned better (fun _ _ => True) (fun _ _ => True)) as H.
  specialize (H ltac:(done) ltac:(done) ltac:(done) ltac:(done) ltac:(done) l [] None).
  simpl in H. destruct (first_best better l 0 None) as [[j q']|]; [by exists j|].
  exfalso. by apply (H ltac:(by intros ??) k q).
Qed.

Lemma length_numeric l ns : numeric l = Ok ns -> length ns = length l.
Proof. intros H%numeric_Forall2. symmetry. by eapply Forall2_length. Qed.

Lemma omap_id_nonempty (ns : list (option Q)) :
  omap id ns ≠ [] -> exists k q, ns !! k = Some (Some q).
Proof.
  induction ns as [|[q|] ns IH]; simpl; [done| |].
  - intros _. by exists 0%nat, q.
  - intros (k & q & Hk)%IH. by exists (S k), q.
Qed.

(** The sum of a column lies between its number of numbers times any
    lower and any upper bound of them. *)
Lemma series_sum_bounds (lo hi : Q) ns :
  (forall k q, ns !! k = Some (Some q) -> (lo <= q <= hi)%Q) ->
  (inject_Z (Z.of_nat (length (omap id ns))) * lo <= series_sum ns
   <= inject_Z (Z.of_nat (length (omap id ns))) * hi)%Q.
Proof.
  induction ns as [|x ns IH] using rev_ind; intros Hb.
  - unfold series_sum. simpl. change (inject_Z (Z.of_nat 0)) with 0%Q. lra.
  - rewrite omap_app, length_app, series_sum_snoc.
    assert (IH' := IH (fun k q Hk => Hb k q (lookup_app_l_Some _ _ _ _ Hk))).
    destruct x as [q|]; simpl.
    + assert (Hq : (lo <= q <= hi)%Q).
      { apply (Hb (length ns)). by rewrite lookup_app_r, Nat.sub_diag by lia. }
      rewrite Nat.add_1_r, Nat2Z.inj_succ. unfold Z.succ. rewrite inject_Z_plus.
      change (inject_Z 1) with 1%Q. lra.
    + rewrite Nat.add_0_r. lra.
Qed.

(** X11: on a table whose durations float64 adds without rounding
    (whole minutes, as the timer logs them), whenever the average session
    length is a number, the longest and the shortest session are found as
    well and the average lies between their durations.  (With fractions
    the float64 mean of the code can leave this range by a rounding
    error.) *)
Theorem avg_time_between_extremes (df : DataFrame) (ns : list (option Q)) (a : Q) :
  numeric_column df "Duration_Minutes" = Ok ns ->
  added_exactly ns ->
  avg_time df = Ok (Some a) ->
  exists r0 r1 q0 q1,
    shortest df = Ok r0 /\ longest df = Ok r1 /\
    duration_of (columns df) r0 = Ok (Some q0) /\
    duration_of (columns df) r1 = Ok (Some q1) /\
    (q0 <= a <= q1)%Q.
Proof.
  intros _ _. clear ns.
  unfold avg_time, numeric_column, shortest, longest, idxmin, idxmax, duration_of.
  destruct (column df "Duration_Minutes") as [vs|err] eqn:Hvs; [|done]. simpl.
  destruct (numeric vs) as [ns|err] eqn:Hns; [|done]. simpl.
  unfold series_mean. destruct (omap id ns) as [|v vs'] eqn:Hom; [done|].
  intros [= <-].
  destruct (omap_id_nonempty ns) as (k & q & Hk); [by rewrite Hom|].
  assert (Hvs' : vs = map (fun r => row_get (columns df) r "Duration_Minutes") (rows df)).
  { unfold column in Hvs. case_decide; [by injection Hvs | done]. }
  assert (Hrow : forall better i, idx_best better ns = Ok i ->
            exists r qi, rows df !! i = Some r /\ ns !! i = Some (Some qi) /\
              to_numeric (row_get (columns df) r "Duration_Minutes") = Ok (Some qi)).
  { intros better i (qi & Hi)%idx_best_lookup.
    destruct (Forall2_lookup_r _ _ _ _ _ (numeric_Forall2 _ _ Hns) Hi) as (c & Hc & Hnum).
    rewrite Hvs', list_lookup_fmap in Hc.
    destruct (rows df !! i) as [r|] eqn:Hr; [|done]. injection Hc as <-.
    by exists r, qi. }
  destruct (idx_best_returns Qltb ns k q Hk) as [i0 Hi0].
  destruct (idx_best_returns Qgtb ns k q Hk) as [i1 Hi1].
  destruct (Hrow _ _ Hi0) as (r0 & q0 & Hr0 & Hq0 & Hd0).
  destruct (Hrow _ _ Hi1) as (r1 & q1 & Hr1 & Hq1 & Hd1).
  exists r0, r1, q0, q1. rewrite Hi0, Hi1. simpl. unfold loc. rewrite Hr0, Hr1.
  do 4 (split; [done|]).
  destruct (idx_best_first Qltb (fun a b => b <= a)%Q (fun a b => b < a)%Q) with ns i0
    as (q0' & Hq0' & Hmin); simpl;
    eauto using Qltb_true, Qltb_false, Qle_refl, Qlt_le_weak, Qle_trans, Qlt_le_trans.
  destruct (idx_best_first Qgtb Qle Qlt) with ns i1 as (q1' & Hq1' & Hmax);
    eauto using Qgtb_true, Qgtb_false, Qle_refl, Qlt_le_weak, Qle_trans, Qle_lt_trans.
  rewrite Hq0 in Hq0'. rewrite Hq1 in Hq1'. injection Hq0' as <-. injection Hq1' as <-.
  pose proof (series_sum_bounds q0 q1 ns
                (fun j qj Hj => conj (proj1 (Hmin j qj Hj)) (proj1 (Hmax j qj Hj)))) as Hsum.
  rewrite Hom in Hsum.
  set (n := inject_Z (Z.of_nat (length (v :: vs')))) in *.
  assert (Hn : (0 < n)%Q).
  { unfold n. rewrite <- (Zlt_Qlt 0). simpl length. lia. }
  split.
  - apply Qle_shift_div_l; [done|]. rewrite Qmult_comm. apply Hsum.
  - apply Qle_shift_div_r; [done|]. rewrite Qmult_comm. apply Hsum.
Qed.

Lemma avg_time_between_extremes_witness :
  exists r0 r1 q0 q1,
    shortest tied_sessions = Ok r0 /\ longest tied_sessions = Ok r1 /\
    duration_of (columns tied_sessions) r0 = Ok (Some q0) /\
    duration_of (columns tied_sessions) r1 = Ok (Some q1) /\
    (q0 <= (0 + (25 # 1) + (45 # 1) + (45 # 1) + (10 # 1) + (10 # 1)) / inject_Z 5 <= q1)%Q.
Proof.
  apply (avg_time_between_extremes tied_sessions
           ((fun z => Some (inject_Z z)) <$> [25; 45; 45; 10; 10])).
  - reflexivity.
  - apply added_exactly_whole; [by_evaluation | by vm_compute].
  - reflexivity.
Defined.

(** ** The most distracted session *)

(** The numbers of a column, row by row. *)
Lemma numeric_column_lookup df c ns :
  numeric_column df c = Ok ns ->
  (forall j n, ns !! j = Some n ->
     exists r, rows df !! j = Some r /\ to_numeric (row_get (columns df) r c) = Ok n) /\
  (forall j r, rows df !! j = Some r ->
     exists n, ns !! j = Some n /\ to_numeric (row_get (columns df) r c) = Ok n).
Proof.
  unfold numeric_column, column. case_decide; [|done]. simpl.
  intros Hns%numeric_Forall2. split.
  - intros j n Hj. destruct (Forall2_lookup_r _ _ _ _ _ Hns Hj) as (x & Hx & Hnum).
    rewrite list_lookup_fmap in Hx. destruct (rows df !! j) as [r|]; [|done].
    injection Hx as <-. by exists r.
  - intros j r Hj.
    destruct (Forall2_lookup_l _ _ _ j (row_get (columns df) r c) Hns)
      as (n & Hn & Hnum); [by rewrite list_lookup_fmap, Hj|].
    by exists n.
Qed.






(** ** Totals by subject and by topic *)

#[global] Instance value_le_total : Total value_le.
Proof.
  intros [k1 q1] [k2 q2]. unfold value_le. simpl.
  destruct (Qlt_le_dec q2 q1) as [H%Qlt_le_weak|H]; auto.
Qed.

#[global] Instance value_le_trans : Transitive value_le.
Proof. intros p1 p2 p3. unfold value_le. apply Qle_trans. Qed.

Lemma sort_values_sorted s : StronglySorted value_le (sort_values s).
Proof. apply (StronglySorted_merge_sort value_le). Qed.

Lemma sort_values_perm s : sort_values s ≡ₚ s.
Proof. apply merge_sort_Permutation. Qed.

(** The entries of the sorted totals are the groups with their totals. *)
Lemma elem_of_sorted_totals (m : gmap cell Q) k q :
  (k, q) ∈ sort_values (map_to_list m) <-> m !! k = Some q.
Proof. rewrite sort_values_perm. apply elem_of_map_to_list. Qed.

Section series_best.
Variable better : Q -> Q -> bool.
Variables le lt : Q -> Q -> Prop.
Hypothesis better_true : forall q b, better q b = true -> lt b q.
Hypothesis better_false : forall q b, better q b = false -> le q b.
Hypothesis le_refl : forall a, le a a.
Hypothesis lt_le : forall a b, lt a b -> le a b.
Hypothesis le_trans : forall a b c, le a b -> le b c -> le a c.
Hypothesis le_lt_trans : forall a b c, le a b -> lt b c -> lt a c.

(** The label that the scan of a series returns is that of its first
    best entry. *)
Lemma series_idx_best_first s k :
  series_idx_best better s = Ok k ->
  exists i q,
    s !! i = Some (k, q) /\
    forall j k' q', s !! j = Some (k', q') -> le q' q /\ ((j < i)%nat -> lt q' q).
Proof.
  unfold series_idx_best.
  destruct (idx_best better _) as [i|err] eqn:Hi; [|done]. simpl.
  destruct (s !! i) as [[k0 q0]|] eqn:Hs; [|done]. intros [= <-].
  destruct (idx_best_first better le lt) with ((fun p : cell * Q => Some p.2) <$> s) i
    as (q & Hq & Hbest); auto.
  rewrite list_lookup_fmap, Hs in Hq. injection Hq as <-.
  exists i, q0. split; [done|]. intros j k' q' Hj. apply Hbest.
  by rewrite list_lookup_fmap, Hj.
Qed.
End series_best.

(** X14: the subject named most studied has a total that no subject
    exceeds, and the subject named least studied one that no subject
    undercuts; the least studied subject is the first entry of the sorted
    totals that the bar chart shows. *)
Theorem most_and_least_studied (df : DataFrame) (k1 k0 : cell) :
  most_studied_sub df = Ok k1 ->
  least_studied_sub df = Ok k0 ->
  exists s q1 q0,
    subject_stats df = Ok s /\
    series_get s k1 = Some q1 /\
    series_get s k0 = Some q0 /\
    head s = Some (k0, q0) /\
    forall k q, series_get s k = Some q -> (q0 <= q <= q1)%Q.
Proof.
  unfold most_studied_sub, least_studied_sub, subject_stats.
  destruct (groupby_sum _ _ df) as [m|err]; [|done]. simpl.
  set (s := sort_values (map_to_list m)).
  intros H1 H0.
  apply (series_idx_best_first Qgtb Qle Qlt) in H1 as (i1 & q1 & Hi1 & Hmax);
    eauto using Qgtb_true, Qgtb_false, Qle_refl, Qlt_le_weak, Qle_trans, Qle_lt_trans.
  apply (series_idx_best_first Qltb (fun a b => b <= a)%Q (fun a b => b < a)%Q)
    in H0 as (i0 & q0 & Hi0 & Hmin); simpl;
    eauto using Qltb_true, Qltb_false, Qle_refl, Qlt_le_weak, Qle_trans, Qlt_le_trans.
  exists s, q1, q0. split; [done|].
  assert (Hget : forall k q, series_get s k = Some q <-> (k, q) ∈ s).
  { intros k q. unfold s. by rewrite series_get_sort_values, elem_of_sorted_totals. }
  split; [apply Hget; by eapply list_elem_of_lookup_2|].
  split; [apply Hget; by eapply list_elem_of_lookup_2|].
  split.
  - destruct i0 as [|i0]; [by rewrite head_lookup|]. exfalso.
    destruct (lookup_lt_is_Some_2 s 0) as [[k q] Hhd];
      [apply lookup_lt_Some in Hi0; lia|].
    destruct (Hmin 0%nat k q Hhd) as [_ Hlt]. specialize (Hlt ltac:(lia)).
    pose proof (sort_values_sorted (map_to_list m)) as Hsorted. fold s in Hsorted.
    rewrite <- (take_drop_middle s (S i0) (k0, q0)) in Hsorted by done.
    assert (Hle : value_le (k, q) (k0, q0)).
    { eapply (StronglySorted_app_1_elem_of _ _ _ _ _ Hsorted); [|by left].
      apply (list_elem_of_lookup_2 _ 0). rewrite lookup_take_lt by lia. done. }
    unfold value_le in Hle. simpl in Hle. by apply (Qlt_not_le _ _ Hlt).
  - intros k q [j Hj]%Hget%list_elem_of_lookup_1. split.
    + by apply (Hmin j k q).
    + by apply (Hmax j k q).
Qed.

Lemma most_and_least_studied_witness :
  exists s q1 q0,
    subject_stats tied_sessions = Ok s /\
    series_get s (Str "Math") = Some q1 /\
    series_get s (Str "Art") = Some q0 /\
    head s = Some (Str "Art", q0) /\
    forall k q, series_get s k = Some q -> (q0 <= q <= q1)%Q.
Proof. apply (most_and_least_studied tied_sessions); reflexivity. Defined.

Lemma length_series_tail {A} n (l : list A) :
  length (series_tail n l) = (length l `min` n)%nat.
Proof. unfold series_tail. rewrite length_drop. lia. Qed.

(** X15: the topic chart shows at most five topics, each with its
    total, in ascending order of total; it shows all topics if there are
    at most five, and otherwise no topic left out has a larger total than
    a topic shown. *)
Theorem topic_stats_shows_top_five (df : DataFrame) (t : list (cell * Q)) :
  topic_stats df = Ok t ->
  exists m,
    groupby_sum "Topic" "Duration_Minutes" df = Ok m /\
    length t = (size m `min` 5)%nat /\
    StronglySorted value_le t /\
    (forall k q, (k, q) ∈ t -> m !! k = Some q) /\
    (forall k q k' q', m !! k = Some q -> (k, q) ∉ t -> (k', q') ∈ t -> (q <= q')%Q).
Proof.
  unfold topic_stats.
  destruct (groupby_sum _ _ df) as [m|err]; [|done]. simpl. intros [= <-].
  exists m. split; [done|].
  set (s := sort_values (map_to_list m)).
  pose proof (sort_values_sorted (map_to_list m)) as Hsorted. fold s in Hsorted.
  assert (Hsplit : s = take (length s - 5) s ++ series_tail 5 s)
    by (unfold series_tail; by rewrite take_drop).
  split; [|split; [|split]].
  - rewrite length_series_tail. unfold s.
    by rewrite sort_values_perm, length_map_to_list.
  - rewrite Hsplit in Hsorted. by apply StronglySorted_app_1_r in Hsorted.
  - intros k q Hin. apply elem_of_sorted_totals. fold s. rewrite Hsplit.
    apply elem_of_app. by right.
  - intros k q k' q' Hm Hout Hin.
    apply elem_of_sorted_totals in Hm. fold s in Hm. rewrite Hsplit in Hm, Hsorted.
    apply elem_of_app in Hm as [Hm|Hm]; [|done].
    apply (StronglySorted_app_1_elem_of _ _ _ _ _ Hsorted Hm Hin).
Qed.

Lemma topic_stats_shows_top_five_witness :
  exists m,
    groupby_sum "Topic" "Duration_Minutes" six_topics = Ok m /\
    length [(Str "Genes", 20 # 1); (Str "Sets", 30 # 1); (Str "Clay", 40 # 1);
            (Str "Ink", 50 # 1); (Str "Cells", 60 # 1)]%Q = (size m `min` 5)%nat /\
    StronglySorted value_le
      [(Str "Genes", 20 # 1); (Str "Sets", 30 # 1); (Str "Clay", 40 # 1);
       (Str "Ink", 50 # 1); (Str "Cells", 60 # 1)]%Q /\
    (forall k q,
       (k, q) ∈ [(Str "Genes", 20 # 1); (Str "Sets", 30 # 1); (Str "Clay", 40 # 1);
                 (Str "Ink", 50 # 1); (Str "Cells", 60 # 1)]%Q -> m !! k = Some q) /\
    (forall k q k' q', m !! k = Some q ->
       (k, q) ∉ [(Str "Genes", 20 # 1); (Str "Sets", 30 # 1); (Str "Clay", 40 # 1);
                 (Str "Ink", 50 # 1); (Str "Cells", 60 # 1)]%Q ->
       (k', q') ∈ [(Str "Genes", 20 # 1); (Str "Sets", 30 # 1); (Str "Clay", 40 # 1);
                   (Str "Ink", 50 # 1); (Str "Cells", 60 # 1)]%Q -> (q <= q')%Q).
Proof. apply (topic_stats_shows_top_five six_topics). reflexivity. Defined.

(** ** The history view *)

#[global] Instance cell_le_total : Total cell_le.
Proof.
  intros c1 c2. unfold cell_le.
  destruct c1 as [s1|z1|q1|], c2 as [s2|z2|q2|]; simpl; auto;
    try (match goal with
         | |- (?a <= ?b)%Q \/ _ =>
             destruct (Qlt_le_dec b a) as [H%Qlt_le_weak|H]; auto
         end).
  apply (total String.le).
Qed.

#[global] Instance cell_le_trans : Transitive cell_le.
Proof.
  intros c1 c2 c3. unfold cell_le.
  destruct c1 as [s1|z1|q1|], c2 as [s2|z2|q2|], c3 as [s3|z3|q3|]; simpl;
    try done; try apply Qle_trans.
  intros H12 H23. by etrans.
Qed.

#[global] Instance date_ge_total cols : Total (date_ge cols).
Proof. intros r1 r2. unfold date_ge. apply (total cell_le). Qed.

#[global] Instance date_ge_trans cols : Transitive (date_ge cols).
Proof.
  intros r1 r2 r3 H12 H23. unfold date_ge in *. by transitivity (row_get cols r2 "Date").
Qed.

Lemma StronglySorted_lookup_lt {A} (R : relation A) (l : list A) i j x y :
  StronglySorted R l -> (i < j)%nat -> l !! i = Some x -> l !! j = Some y -> R x y.
Proof.
  intros Hs Hij Hi Hj.
  rewrite <- (take_drop (S i) l) in Hs.
  apply (StronglySorted_app_1_elem_of _ _ _ _ _ Hs).
  - apply (list_elem_of_lookup_2 _ i). rewrite lookup_take_lt by lia. done.
  - apply (list_elem_of_lookup_2 _ (j - S i)). rewrite lookup_drop.
    replace (S i + (j - S i))%nat with j by lia. done.
Qed.

(** X16: the history view shows every loaded row exactly once, a row
    with a date never below a row without one, and dates in descending
    order: of two rows with text dates the one shown first has the later
    or the same text, in code-point order. *)
Theorem history_latest_first (df : DataFrame) (h : list (list cell)) :
  history df = Ok h ->
  h ≡ₚ rows df /\
  forall i j r1 r2,
    (i < j)%nat -> h !! i = Some r1 -> h !! j = Some r2 ->
    (row_get (columns df) r1 "Date" = NaN -> row_get (columns df) r2 "Date" = NaN) /\
    forall d1 d2,
      row_get (columns df) r1 "Date" = Str d1 ->
      row_get (columns df) r2 "Date" = Str d2 ->
      String.le d2 d1.
Proof.
  unfold history. destruct (column df "Date") as [ks|err]; [|done]. simpl.
  destruct (existsb is_text ks && existsb is_number ks); [done|]. intros [= <-].
  split; [apply merge_sort_Permutation|].
  intros i j r1 r2 Hij Hi Hj.
  pose proof (StronglySorted_merge_sort (date_ge (columns df)) (rows df)) as Hs.
  pose proof (StronglySorted_lookup_lt _ _ i j r1 r2 Hs Hij Hi Hj) as Hge.
  unfold date_ge, cell_le in Hge. split.
  - intros H1. rewrite H1 in Hge.
    by destruct (row_get (columns df) r2 "Date").
  - intros d1 d2 H1 H2. by rewrite H1, H2 in Hge.
Qed.

Lemma history_latest_first_witness :
  reverse (rows six_topics) ≡ₚ rows six_topics /\
  forall i j r1 r2,
    (i < j)%nat ->
    reverse (rows six_topics) !! i = Some r1 ->
    reverse (rows six_topics) !! j = Some r2 ->
    (row_get (columns six_topics) r1 "Date" = NaN ->
     row_get (columns six_topics) r2 "Date" = NaN) /\
    forall d1 d2,
      row_get (columns six_topics) r1 "Date" = Str d1 ->
      row_get (columns six_topics) r2 "Date" = Str d2 ->
      String.le d2 d1.
Proof. apply (history_latest_first six_topics). by vm_compute. Defined.

(** ** The dashboard on the script's own file *)

Section own_file.
Variable xs : list session.
Let df : DataFrame := {| columns := canonical_columns; rows := entry_row <$> xs |}.

Lemma own_column c (f : session -> cell) :
  c ∈ canonical_columns ->
  (forall x, row_get canonical_columns (entry_row x) c = f x) ->
  column df c = Ok (f <$> xs).
Proof.
  intros Hc Hf. unfold column, df. cbn [columns rows].
  rewrite decide_True by done. f_equal.
  rewrite <- list_fmap_compose. apply list_fmap_ext. intros i x _. apply Hf.
Qed.

Lemma numeric_fmap_numbers (f : session -> cell) (g : session -> Q) :
  (forall x, to_numeric (f x) = Ok (Some (g x))) ->
  numeric (f <$> xs) = Ok ((fun x => Some (g x)) <$> xs).
Proof.
  intros Hf. induction xs as [|x l IH]; [done|].
  rewrite !fmap_cons. apply numeric_cons_Ok. by eexists _, _.
Qed.

Lemma own_durations :
  numeric_column df "Duration_Minutes" =
    Ok ((fun x => Some (round2 (s_minutes x))) <$> xs).
Proof.
  unfold numeric_column.
  rewrite (own_column _ (fun x => Float (round2 (s_minutes x)))) by (by_evaluation || done).
  simpl. by apply numeric_fmap_numbers.
Qed.

Lemma own_breaks :
  numeric_column df "Breaks" = Ok ((fun x => Some (inject_Z (s_breaks x))) <$> xs).
Proof.
  unfold numeric_column.
  rewrite (own_column _ (fun x => Int (s_breaks x))) by (by_evaluation || done).
  simpl. by apply numeric_fmap_numbers.
Qed.
End own_file.

(** A scan over a column with a number in it finds a row. *)
Lemma pick_returns better df c ns k q :
  numeric_column df c = Ok ns ->
  ns !! k = Some (Some q) ->
  returns (i ← idx_best better ns; loc df i).
Proof.
  intros Hns Hk. destruct (idx_best_returns better ns k q Hk) as [i Hi].
  rewrite Hi. simpl. destruct (idx_best_lookup better ns i Hi) as [qi Hqi].
  destruct (numeric_column_lookup df c ns Hns) as [Hfrom _].
  destruct (Hfrom i _ Hqi) as (r & Hr & _). unfold loc. by rewrite Hr.
Qed.

Lemma series_idx_best_returns better (s : list (cell * Q)) :
  s ≠ [] -> returns (series_idx_best better s).
Proof.
  destruct s as [|[k q] s]; [done|]. intros _. unfold series_idx_best.
  destruct (idx_best_returns better ((fun p : cell * Q => Some p.2) <$> (k, q) :: s)
              0%nat q) as [i Hi]; [done|].
  rewrite Hi. simpl. destruct (idx_best_lookup _ _ i Hi) as [qi Hqi].
  rewrite list_lookup_fmap in Hqi.
  by destruct (((k, q) :: s) !! i).
Qed.

(** Grouping rows whose first key is there gives a group. *)
Lemma groupby_first_key k n ks ns :
  k ≠ NaN -> is_Some (foldl add_to_group ∅ (zip (k :: ks) (n :: ns)) !! k).
Proof.
  intros Hk. rewrite foldl_add_to_group_lookup by done.
  cbn [zip zip_with]. rewrite filter_cons, decide_True by done. done.
Qed.

Lemma existsb_fmap_false {A} (p : cell -> bool) (f : A -> cell) (l : list A) :
  (forall x, p (f x) = false) -> existsb p (f <$> l) = false.
Proof.
  intros Hp. induction l as [|x l IH]; [done|].
  rewrite fmap_cons. cbn [existsb]. by rewrite Hp, IH.
Qed.

(** X17: on the file that the script itself has written (absent at
    first, then one save after the other on a working disk) for sessions
    whose date, subject and topic are plain text, the dashboard never
    raises: the table loads and is not empty, and the totals, the average,
    the longest and the shortest session, the most distracted session, the
    totals by subject with the most and the least studied subject, the
    totals by topic and the history are all computed.  (A blank subject is
    read back as a missing value, which the totals by subject drop.) *)
Theorem dashboard_returns_on_own_file (x : session) (xs : list session) :
  forallb own_row (entry_row <$> x :: xs) = true ->
  exists df,
    load_data (foldl append None (x :: xs)) = Ok df /\
    df_empty df = false /\
    returns (total_time df) /\
    returns (avg_time df) /\
    returns (longest df) /\
    returns (shortest df) /\
    returns (most_breaks df) /\
    returns (subject_stats df) /\
    returns (most_studied_sub df) /\
    returns (least_studied_sub df) /\
    returns (topic_stats df) /\
    returns (history df).
Proof.
  intros Hown.
  set (df := {| columns := canonical_columns; rows := entry_row <$> (x :: xs) |}).
  exists df.
  assert (Hfile : foldl append None (x :: xs) = Some (Csv df))
    by (by apply own_file).
  pose proof (own_durations (x :: xs)) as Hdur. fold df in Hdur.
  pose proof (own_breaks (x :: xs)) as Hbr. fold df in Hbr.
  assert (Hgroup : forall c (f : session -> string),
            c ∈ canonical_columns ->
            (forall y, row_get canonical_columns (entry_row y) c = Str (f y)) ->
            exists m, groupby_sum c "Duration_Minutes" df = Ok m /\
                      sort_values (map_to_list m) ≠ []).
  { intros c f Hc Hf. unfold groupby_sum.
    assert (Hcol : column df c = Ok ((fun y => Str (f y)) <$> x :: xs))
      by (by apply own_column).
    rewrite Hcol.
    unfold numeric_column in Hdur.
    destruct (column df "Duration_Minutes") as [vs|err]; [|done].
    simpl in *. rewrite Hdur. simpl. eexists. split; [done|].
    intros Hnil.
    match type of Hnil with
    | sort_values (map_to_list ?m) = [] =>
        assert (Hq : is_Some (m !! Str (f x)))
          by (by apply (groupby_first_key (Str (f x)) (Some (round2 (s_minutes x)))
                          ((fun y => Str (f y)) <$> xs)
                          ((fun y => Some (round2 (s_minutes y))) <$> xs)))
    end.
    destruct Hq as [q Hq]. apply elem_of_sorted_totals in Hq. rewrite Hnil in Hq.
    by apply elem_of_nil in Hq. }
  split; [rewrite Hfile; by apply load_data_with_breaks; by_evaluation|].
  split; [done|].
  split; [unfold total_time; by rewrite Hdur|].
  split; [unfold avg_time; by rewrite Hdur|].
  split.
  { unfold longest, idxmax. unfold numeric_column in Hdur.
    destruct (column df "Duration_Minutes") as [vs|err] eqn:Hvs; [|done].
    simpl in *. rewrite Hdur. simpl.
    eapply (pick_returns _ df "Duration_Minutes" _ 0%nat); [|done].
    unfold numeric_column. rewrite Hvs. exact Hdur. }
  split.
  { unfold shortest, idxmin. unfold numeric_column in Hdur.
    destruct (column df "Duration_Minutes") as [vs|err] eqn:Hvs; [|done].
    simpl in *. rewrite Hdur. simpl.
    eapply (pick_returns _ df "Duration_Minutes" _ 0%nat); [|done].
    unfold numeric_column. rewrite Hvs. exact Hdur. }
  split.
  { unfold most_breaks. rewrite Hbr. simpl.
    destruct (Qltb 0 _); [|done].
    pose proof (pick_returns Qgtb df "Breaks" _ 0%nat (inject_Z (s_breaks x)) Hbr) as Hpick.
    specialize (Hpick ltac:(done)).
    unfold idxmax. destruct (idx_best Qgtb _) as [i|err]; [|done]. simpl in *.
    by destruct (loc df i). }
  destruct (Hgroup "Subject" s_subject) as (m & Hm & Hne); [by_evaluation|done|].
  destruct (Hgroup "Topic" s_topic) as (m' & Hm' & _); [by_evaluation|done|].
  split; [unfold subject_stats; by rewrite Hm|].
  split; [unfold most_studied_sub, subject_stats; rewrite Hm; simpl;
          by apply series_idx_best_returns|].
  split; [unfold least_studied_sub, subject_stats; rewrite Hm; simpl;
          by apply series_idx_best_returns|].
  split; [unfold topic_stats; by rewrite Hm'|].
  unfold history.
  assert (Hcol : column df "Date" = Ok ((fun y => Str (s_date y)) <$> x :: xs))
    by (apply own_column; [by_evaluation | done]).
  rewrite Hcol. cbn [mbind result_bind]. rewrite (existsb_fmap_false is_number) by done.
  by rewrite andb_false_r.
Qed.

Lemma dashboard_returns_on_own_file_witness :
  exists df,
    load_data (foldl append None
                 [mkSession "2024-01-01 10:00" "Math" "Algebra" (25 # 1) 1;
                  mkSession "2024-01-02 09:30" "Bio" "Cells" (45 # 1) 0]) = Ok df /\
    df_empty df = false /\
    returns (total_time df) /\
    returns (avg_time df) /\
    returns (longest df) /\
    returns (shortest df) /\
    returns (most_breaks df) /\
    returns (subject_stats df) /\
    returns (most_studied_sub df) /\
    returns (least_studied_sub df) /\
    returns (topic_stats df) /\
    returns (history df).
Proof.
  exact (dashboard_returns_on_own_file
           (mkSession "2024-01-01 10:00" "Math" "Algebra" (25 # 1) 1)
           [mkSession "2024-01-02 09:30" "Bio" "Cells" (45 # 1) 0] eq_refl).
Defined.

(** ** The bars add up to the headline *)

Lemma series_total_perm s s' :
  s ≡ₚ s' -> (series_total s == series_total s')%Q.
Proof.
  induction 1 as [|p s s' _ IH|p1 p2 s|s1 s2 s3 _ IH1 _ IH2]; simpl.
  - reflexivity.
  - by rewrite IH.
  - ring.
  - by rewrite IH1.
Qed.

Lemma map_total_insert_fresh (m : gmap cell Q) k x :
  m !! k = None ->
  (series_total (map_to_list (<[k:=x]> m)) == x + series_total (map_to_list m))%Q.
Proof. intros Hk. by rewrite (series_total_perm _ _ (map_to_list_insert m k x Hk)). Qed.

Lemma map_total_insert (m : gmap cell Q) k x :
  (series_total (map_to_list (<[k:=x]> m)) + default 0 (m !! k)
   == x + series_total (map_to_list m))%Q.
Proof.
  destruct (m !! k) as [d|] eqn:Hk; simpl.
  - rewrite <- (insert_delete_eq m), map_total_insert_fresh by apply lookup_delete_eq.
    rewrite <- (insert_delete_id m k d Hk) at 2.
    rewrite map_total_insert_fresh by apply lookup_delete_eq. ring.
  - rewrite map_total_insert_fresh by done. ring.
Qed.

Lemma add_to_group_total (m : gmap cell Q) p :
  p.1 ≠ NaN ->
  (series_total (map_to_list (add_to_group m p))
   == series_total (map_to_list m) + default 0 p.2)%Q.
Proof.
  destruct p as [k v]. simpl. intros Hk.
  rewrite add_to_group_key, decide_False by done.
  pose proof (map_total_insert m k (default 0 (m !! k) + default 0 v)%Q) as H.
  lra.
Qed.

Lemma foldl_add_to_group_total ps (m : gmap cell Q) (a : Q) :
  Forall (fun p => p.1 ≠ NaN) ps ->
  (a == series_total (map_to_list m))%Q ->
  (foldl (fun acc n => acc + default 0 n) a (ps.*2)
   == series_total (map_to_list (foldl add_to_group m ps)))%Q.
Proof.
  intros Hps. revert m a. induction Hps as [|p ps Hp _ IH]; intros m a Ha; [done|].
  rewrite fmap_cons. cbn [foldl]. apply IH.
  rewrite add_to_group_total by done. by rewrite Ha.
Qed.

(** X18: on a table whose durations float64 adds without rounding
    (whole minutes, as the timer logs them), when every row has a subject,
    the totals by subject shown in the bar chart add up to the total study
    time of the headline.  (With fractions the float64 totals of the code
    can differ by a rounding error.) *)
Theorem subject_totals_add_up (df : DataFrame) (ns : list (option Q))
    (s : list (cell * Q)) (t : Q) :
  numeric_column df "Duration_Minutes" = Ok ns ->
  added_exactly ns ->
  subject_stats df = Ok s ->
  total_time df = Ok t ->
  (forall j r, rows df !! j = Some r -> row_get (columns df) r "Subject" ≠ NaN) ->
  (series_total s == t)%Q.
Proof.
  intros _ _. clear ns.
  unfold subject_stats, groupby_sum, total_time, numeric_column.
  destruct (column df "Subject") as [ks|err] eqn:Hks; [|done]. simpl.
  destruct (column df "Duration_Minutes") as [vs|err] eqn:Hvs; [|done]. simpl.
  destruct (numeric vs) as [ns|err] eqn:Hns; [|done]. simpl.
  intros [= <-] [= <-] Hsub.
  rewrite (series_total_perm _ _ (sort_values_perm _)).
  unfold column in Hks, Hvs. repeat case_decide; try done.
  injection Hks as <-. injection Hvs as <-.
  apply length_numeric in Hns as Hlen. rewrite length_map in Hlen.
  symmetry. unfold series_sum.
  rewrite <- (snd_zip (map (fun r => row_get (columns df) r "Subject") (rows df)) ns)
    at 1 by (rewrite length_map; lia).
  apply foldl_add_to_group_total; [|by rewrite map_to_list_empty].
  apply Forall_forall. intros [k v] [j Hj]%list_elem_of_lookup_1.
  apply lookup_zip_with_Some in Hj as (k' & v' & [= <- <-] & Hk & Hv).
  rewrite list_lookup_fmap in Hk.
  destruct (rows df !! j) as [r|] eqn:Hr; [|done]. injection Hk as <-.
  simpl. by apply (Hsub j).
Qed.

Lemma subject_totals_add_up_witness :
  (series_total [(Str "Art", 10 # 1); (Str "Bio", 55 # 1); (Str "Math", 70 # 1)]
   == 0 + (25 # 1) + (45 # 1) + (45 # 1) + (10 # 1) + (10 # 1))%Q.
Proof.
  apply (subject_totals_add_up tied_sessions
           ((fun z => Some (inject_Z z)) <$> [25; 45; 45; 10; 10]));
    [reflexivity | apply added_exactly_whole; [by_evaluation | by vm_compute]
    | reflexivity | reflexivity |].
  intros j r Hj.
  repeat (destruct j as [|j]; [injection Hj as <-; by vm_compute|]). done.
Defined.

(** ** A break costs no time *)

(** X19: pausing a running timer, leaving it paused for any number of
    reruns and resuming it gives back the running timer with the same time
    left and initial time and exactly one more break; nothing is written. *)
Theorem break_keeps_time_left (i : run_inputs) (n : nat) (s : session_state)
    (fs : filesystem) :
  timer_running s = true ->
  run_events i (Pause :: repeat Tick n ++ [Start]) (s, fs) =
    (mkState (time_left s) true (initial_time s) (break_count s + 1), fs).
Proof.
  intros Hr. destruct s as [t r it b]. simpl in Hr. subst r.
  rewrite run_events_cons, step_pause, run_events_app, run_ticks_idle by done.
  by rewrite run_events_cons, step_start.
Qed.

Lemma break_keeps_time_left_witness :
  run_events default_inputs (Pause :: repeat Tick 7 ++ [Start])
    (mkState 1490 true 1500 0, None) = (mkState 1490 true 1500 1, None).
Proof.
  exact (break_keeps_time_left default_inputs 7 (mkState 1490 true 1500 0) None eq_refl).
Defined.
